(** * wiktextract/wiktionary.py: thesaurus extraction from a Wiktionary dump

    A shallow embedding of [parse_text], of the XML target class
    [WiktionaryTarget] ([start], [end], [data]) and of the driver
    [parse_wiktionary], followed by the properties of the specification
    that were checked against them.

    Python [str] values are modelled by [string]; a character stands for
    the code point with the same number, so the model covers the code
    points 0..255 and is exact on them ([str.isspace], [str.lower], the
    [\w] class of [re] and the line boundaries of [str.splitlines] are the
    Python ones restricted to that range). *)

From Stdlib Require Import String Ascii List Bool Arith Lia.
Import ListNotations.
Open Scope string_scope.
Open Scope list_scope.
Open Scope nat_scope.

Set Implicit Arguments.

(** ** Python strings *)

Module PyStr.

Definition code (c : ascii) : nat := nat_of_ascii c.

Definition between (lo hi n : nat) : bool := (lo <=? n) && (n <=? hi).

(** [str.isspace] on one character: TAB..CR, FS..US, SPACE, NEL, NBSP. *)
Definition isspace (c : ascii) : bool :=
  let n := code c in
  between 9 13 n || between 28 32 n || (n =? 133) || (n =? 160).

(** The class [\w] of a [str] pattern: alphanumerics and the underscore. *)
Definition isword (c : ascii) : bool :=
  let n := code c in
  between 48 57 n || between 65 90 n || (n =? 95) || between 97 122 n
  || (n =? 170) || between 178 179 n || (n =? 181) || between 185 186 n
  || between 188 190 n || between 192 214 n || between 216 246 n
  || between 248 255 n.

(** Line boundaries of [str.splitlines]: LF, VT, FF, CR, FS, GS, RS, NEL. *)
Definition islinebreak (c : ascii) : bool :=
  let n := code c in
  between 10 13 n || between 28 30 n || (n =? 133).

Definition lower_char (c : ascii) : ascii :=
  let n := code c in
  if between 65 90 n || between 192 214 n || between 216 222 n
  then ascii_of_nat (n + 32) else c.

(** [s.lower()] *)
Fixpoint lower (s : string) : string :=
  match s with
  | EmptyString => EmptyString
  | String c r => String (lower_char c) (lower r)
  end.

Fixpoint lstrip (s : string) : string :=
  match s with
  | EmptyString => EmptyString
  | String c r => if isspace c then lstrip r else s
  end.

Fixpoint rstrip (s : string) : string :=
  match s with
  | EmptyString => EmptyString
  | String c r =>
      let r' := rstrip r in
      if isspace c && (r' =? "")%string then EmptyString else String c r'
  end.

(** [s.strip()] *)
Definition strip (s : string) : string := rstrip (lstrip s).

(** [sub in s] *)
Fixpoint contains (sub s : string) : bool :=
  if String.prefix sub s then true
  else match s with
       | EmptyString => false
       | String _ r => contains sub r
       end.

(** [sep.join(l)] with [sep] the empty string. *)
Definition join (l : list string) : string := String.concat "" l.

(** [x in l] for a list, tuple or set of strings. *)
Definition mem (x : string) (l : list string) : bool :=
  existsb (String.eqb x) l.

(** [s.splitlines()]: [cur] is the line read so far; CR LF is one boundary
    and a final boundary opens no further line. *)
Fixpoint splitlines_from (cur s : string) : list string :=
  match s with
  | EmptyString => if (cur =? "")%string then [] else [cur]
  | String c r =>
      if islinebreak c then
        if (code c =? 13) then
          match r with
          | String c' r' =>
              if (code c' =? 10) then cur :: splitlines_from "" r'
              else cur :: splitlines_from "" r
          | EmptyString => cur :: splitlines_from "" r
          end
        else cur :: splitlines_from "" r
      else splitlines_from (cur ++ String c "")%string r
  end.

Definition splitlines (s : string) : list string := splitlines_from "" s.

(** [re.sub(r'[^\w]', ' ', s)] *)
Fixpoint sub_nonword_space (s : string) : string :=
  match s with
  | EmptyString => EmptyString
  | String c r =>
      String (if isword c then c else " "%char) (sub_nonword_space r)
  end.

(** [re.sub(r".*}", "", s)]: the dot stops at LF, so on every LF-delimited
    piece the text up to its last closing brace is removed. *)
Fixpoint sub_upto_rbrace_from (cur s : string) : string :=
  match s with
  | EmptyString => cur
  | String c r =>
      if (code c =? 125) then sub_upto_rbrace_from "" r
      else if (code c =? 10) then
        (cur ++ String c (sub_upto_rbrace_from "" r))%string
      else sub_upto_rbrace_from (cur ++ String c "")%string r
  end.

Definition sub_upto_rbrace (s : string) : string := sub_upto_rbrace_from "" s.

(** [idx = s.find("}")] followed by [s[idx + 1:]] when [idx >= 0]. *)
Fixpoint after_first_rbrace (s : string) : option string :=
  match s with
  | EmptyString => None
  | String c r => if (code c =? 125) then Some r else after_first_rbrace r
  end.

End PyStr.

(** ** Exceptions

    The exceptions the modelled code can raise, with the statement that
    raises each. *)

Inductive assert_site : Type :=
  | StackMismatch   (* end: assert tag == ptag *)
  | WordNotStr      (* parse_text: assert isinstance(word, str) *)
  | TextNotStr.     (* parse_text: assert isinstance(text, str) *)

Inductive index_site : Type :=
  | PopEmptyStack   (* end: self.stack.pop() *)
  | FirstLine.      (* parse_text: wordss[0] *)

Inductive exn : Type :=
  | AssertionError (a : assert_site)
  | IndexError (i : index_site)
  | AttributeError  (* self.attrs or self.data.append before any start *)
  | TypeError.      (* "".join(self.data) before any start *)

Inductive result (A : Type) : Type :=
  | Ok (a : A)
  | Raise (e : exn).

Arguments Ok {A} a.
Arguments Raise {A} e.

Definition bind {A B : Type} (r : result A) (k : A -> result B) : result B :=
  match r with
  | Ok a => k a
  | Raise e => Raise e
  end.

(** ** Static tables *)

(** These XML tags are ignored when parsing. *)
Definition ignore_tags : list string :=
  ["sha1"; "comment"; "username"; "timestamp";
   "sitename"; "dbname"; "base"; "generator"; "case";
   "ns"; "restrictions"; "contributor"; "username";
   "minor"; "parentid"; "namespaces"; "revision";
   "siteinfo"; "mediawiki"].

(** Other tags are ignored inside these tags. *)
Definition stack_ignore : list string := ["contributor"].

(** ** Dictionaries

    A Python [dict] as an association list in insertion order; assigning
    to a key that is present replaces its value in place. *)

Section Dict.

Variables K V : Type.
Variable eqb : K -> K -> bool.

Fixpoint dict_get (d : list (K * V)) (k : K) : option V :=
  match d with
  | [] => None
  | (k', v) :: r => if eqb k' k then Some v else dict_get r k
  end.

Fixpoint dict_set (d : list (K * V)) (k : K) (v : V) : list (K * V) :=
  match d with
  | [] => [(k, v)]
  | (k', v') :: r =>
      if eqb k' k then (k', v) :: r else (k', v') :: dict_set r k v
  end.

End Dict.

Definition opt_eqb (a b : option string) : bool :=
  match a, b with
  | Some x, Some y => (x =? y)%string
  | None, None => true
  | _, _ => false
  end.

(** ** The relation classifier: [parse_text] *)

(** The seven lists [syno], [anto], ... of [parse_text]. *)
Record buckets : Type := Buckets {
  syno : list string;
  anto : list string;
  hypo : list string;
  hyper : list string;
  inst : list string;
  mero : list string;
  holy : list string
}.

Definition no_buckets : buckets := Buckets [] [] [] [] [] [] [].

(** The dictionary [data] written by [parse_text], one JSON line of
    Output.txt. *)
Record entry : Type := Entry {
  word : string;
  Synonyms : list string;
  Antonyms : list string;
  Hyponyms : list string;
  Hypernyms : list string;
  Instances : list string;
  Meronyms : list string;
  Holonyms : list string
}.

Definition entry_of (w : string) (b : buckets) : entry :=
  Entry w (syno b) (anto b) (hypo b) (hyper b) (inst b) (mero b) (holy b).

(** [re.sub(r'[^\w]', ' ', aword).strip()] *)
Definition label (aword : string) : string :=
  PyStr.strip (PyStr.sub_nonword_space aword).

Definition is_list_marker (aword : string) : bool :=
  ("{{ws beginlist}}" =? aword)%string || ("{{ws endlist}}" =? aword)%string.

Definition is_sentinel (aword : string) : bool :=
  ("=====Various=====" =? aword)%string
  || ("===See also===" =? aword)%string
  || ("===Further reading===" =? aword)%string.

(** The [if]/[elif] chain that assigns [key]. *)
Definition next_key (key : option string) (aword : string) : option string :=
  if ("Synonyms" =? label aword)%string then Some "a"
  else if ("Antonyms" =? label aword)%string then Some "b"
  else if ("Hyponyms" =? label aword)%string then Some "c"
  else if ("Hypernyms" =? label aword)%string then Some "d"
  else if ("Instances" =? label aword)%string then Some "e"
  else if ("Meronyms" =? label aword)%string then Some "f"
  else if ("Holonyms" =? label aword)%string then Some "g"
  else if is_sentinel aword then Some "Dont care now"
  else key.

Definition key_is (key : option string) (k : string) : bool :=
  match key with
  | Some k' => (k' =? k)%string
  | None => false
  end.

Definition add_syno v b := Buckets (syno b ++ [v]) (anto b) (hypo b) (hyper b) (inst b) (mero b) (holy b).
Definition add_anto v b := Buckets (syno b) (anto b ++ [v]) (hypo b) (hyper b) (inst b) (mero b) (holy b).
Definition add_hypo v b := Buckets (syno b) (anto b) (hypo b ++ [v]) (hyper b) (inst b) (mero b) (holy b).
Definition add_hyper v b := Buckets (syno b) (anto b) (hypo b) (hyper b ++ [v]) (inst b) (mero b) (holy b).
Definition add_inst v b := Buckets (syno b) (anto b) (hypo b) (hyper b) (inst b ++ [v]) (mero b) (holy b).
Definition add_mero v b := Buckets (syno b) (anto b) (hypo b) (hyper b) (inst b) (mero b ++ [v]) (holy b).
Definition add_holy v b := Buckets (syno b) (anto b) (hypo b) (hyper b) (inst b) (mero b) (holy b ++ [v]).

Section Classifier.

(** [first_arg aword] is the outcome of
    [wtp.parse(aword).templates[0].arguments[0].value], with [None] when
    the indexing raises (no template on the line, or a template without
    argument); [wtp.parse] itself raises nothing on a string.
    wikitextparser is a library outside the repository, so the classifier
    is modelled over any such function. *)
Variable first_arg : string -> option string.

(** One of the seven guarded blocks of the loop body: when the block
    applies, the value is appended and the body goes on with [rest]; when
    the expression raises, [continue] leaves the body. *)
Definition block (key : option string) (aword k header : string)
    (add : string -> buckets -> buckets)
    (rest : buckets -> buckets) (b : buckets) : buckets :=
  if key_is key k && negb (header =? label aword)%string then
    match first_arg aword with
    | Some v => rest (add v b)
    | None => b
    end
  else rest b.

(** The body of [for aword in wordss]. *)
Definition scan_line (st : option string * buckets) (aword : string)
    : option string * buckets :=
  let (key, b) := st in
  if is_list_marker aword then st
  else
    let key := next_key key aword in
    (key,
     block key aword "a" "Synonyms" add_syno
       (block key aword "b" "Antonyms" add_anto
         (block key aword "c" "Hyponyms" add_hypo
           (block key aword "d" "Hypernyms" add_hyper
             (block key aword "e" "Instances" add_inst
               (block key aword "f" "Meronyms" add_mero
                 (block key aword "g" "Holonyms" add_holy
                   (fun b => b))))))) b).

Definition scan_lines (st : option string * buckets) (wordss : list string)
    : option string * buckets :=
  fold_left scan_line wordss st.

(** [[s.strip() for s in text.splitlines() if s]] *)
Definition wordss_of (text : string) : list string :=
  map PyStr.strip
      (filter (fun s => negb (s =? "")%string) (PyStr.splitlines text)).

(** [parse_text(word, text, ctx)].  [word] and [text] are [None] or a
    string; [out] is the content of Output.txt, to which the function
    appends one line.  The function returns nothing. *)
Definition parse_text (word text : option string) (out : list entry)
    : result (list entry) :=
  match word with
  | None => Raise (AssertionError WordNotStr)
  | Some word =>
      match text with
      | None => Raise (AssertionError TextNotStr)
      | Some text =>
          if negb (PyStr.contains "Thesaurus:" word) then Ok out
          else
            let wordss := wordss_of text in
            match wordss with
            | [] => Raise (IndexError FirstLine)
            | w0 :: _ =>
                let (_, b) := scan_lines (None, no_buckets) wordss in
                Ok (out ++ [entry_of w0 b])
            end
      end
  end.

End Classifier.

(** ** The XML target: [WiktionaryTarget] *)

(** The dictionary handed to [word_cb] for a redirect page. *)
Record redirect_data : Type := RedirectData {
  rd_redirect : string;
  rd_word : option string
}.

(** The lines printed on standard output. *)
Inductive diag : Type :=
  | UNRECOGNIZED_MODEL (data : string)
  | UNRECOGNIZED_FORMAT (data : string)
  | UNSUPPORTED (tag : string) (len : nat) (attrs : list (string * string)).

(** The instance attributes that [start], [end] and [data] read or write.
    [stack] has the most recently opened tag first.  [attrs] and [data]
    are [None] until the first [start] assigns them.  The last three
    fields record the effects: the arguments of the calls of [word_cb],
    the lines appended to Output.txt and the lines printed.  The other
    constructor arguments and the three counters are stored and never
    read. *)
Record WiktionaryTarget : Type := Target {
  capture_redirects : bool;
  tag : option string;
  namespaces : list (option string * string);
  stack : list string;
  text : option string;
  title : option string;
  pageid : option string;
  redirect : option string;
  model : option string;
  format : option string;
  attrs : option (list (string * string));
  data : option (list string);
  word_cb_calls : list redirect_data;
  output_txt : list entry;
  stdout : list diag
}.

(** [WiktionaryTarget.__init__] *)
Definition init (redirects : bool) : WiktionaryTarget :=
  Target redirects None [] [] None None None None None None None None
         [] [] [].

Definition opened (self : WiktionaryTarget) (t : string)
    (a : list (string * string)) : WiktionaryTarget :=
  Target (capture_redirects self) (Some t) (namespaces self)
         (t :: stack self) (text self) (title self) (pageid self)
         (redirect self) (model self) (format self) (Some a) (Some [])
         (word_cb_calls self) (output_txt self) (stdout self).

Definition fresh_page (self : WiktionaryTarget) : WiktionaryTarget :=
  Target (capture_redirects self) (tag self) (namespaces self)
         (stack self) None None None None None None (attrs self) (data self)
         (word_cb_calls self) (output_txt self) (stdout self).

Definition popped (self : WiktionaryTarget) (rest : list string)
    : WiktionaryTarget :=
  Target (capture_redirects self) (tag self) (namespaces self)
         rest (text self) (title self) (pageid self)
         (redirect self) (model self) (format self) (attrs self) (Some [])
         (word_cb_calls self) (output_txt self) (stdout self).

Definition set_pageid (self : WiktionaryTarget) (v : option string) :=
  Target (capture_redirects self) (tag self) (namespaces self)
         (stack self) (text self) (title self) v
         (redirect self) (model self) (format self) (attrs self) (data self)
         (word_cb_calls self) (output_txt self) (stdout self).

Definition set_title (self : WiktionaryTarget) (v : option string) :=
  Target (capture_redirects self) (tag self) (namespaces self)
         (stack self) (text self) v (pageid self)
         (redirect self) (model self) (format self) (attrs self) (data self)
         (word_cb_calls self) (output_txt self) (stdout self).

Definition set_text (self : WiktionaryTarget) (v : option string) :=
  Target (capture_redirects self) (tag self) (namespaces self)
         (stack self) v (title self) (pageid self)
         (redirect self) (model self) (format self) (attrs self) (data self)
         (word_cb_calls self) (output_txt self) (stdout self).

Definition set_redirect (self : WiktionaryTarget) (v : option string) :=
  Target (capture_redirects self) (tag self) (namespaces self)
         (stack self) (text self) (title self) (pageid self)
         v (model self) (format self) (attrs self) (data self)
         (word_cb_calls self) (output_txt self) (stdout self).

Definition set_model (self : WiktionaryTarget) (v : option string) :=
  Target (capture_redirects self) (tag self) (namespaces self)
         (stack self) (text self) (title self) (pageid self)
         (redirect self) v (format self) (attrs self) (data self)
         (word_cb_calls self) (output_txt self) (stdout self).

Definition set_format (self : WiktionaryTarget) (v : option string) :=
  Target (capture_redirects self) (tag self) (namespaces self)
         (stack self) (text self) (title self) (pageid self)
         (redirect self) (model self) v (attrs self) (data self)
         (word_cb_calls self) (output_txt self) (stdout self).

Definition set_namespace (self : WiktionaryTarget) (k : option string)
    (v : string) :=
  Target (capture_redirects self) (tag self)
         (dict_set opt_eqb (namespaces self) k v)
         (stack self) (text self) (title self) (pageid self)
         (redirect self) (model self) (format self) (attrs self) (data self)
         (word_cb_calls self) (output_txt self) (stdout self).

Definition set_data (self : WiktionaryTarget) (v : option (list string)) :=
  Target (capture_redirects self) (tag self) (namespaces self)
         (stack self) (text self) (title self) (pageid self)
         (redirect self) (model self) (format self) (attrs self) v
         (word_cb_calls self) (output_txt self) (stdout self).

(** [self.word_cb(d)] *)
Definition word_cb (self : WiktionaryTarget) (d : redirect_data) :=
  Target (capture_redirects self) (tag self) (namespaces self)
         (stack self) (text self) (title self) (pageid self)
         (redirect self) (model self) (format self) (attrs self) (data self)
         (word_cb_calls self ++ [d]) (output_txt self) (stdout self).

Definition set_output_txt (self : WiktionaryTarget) (out : list entry) :=
  Target (capture_redirects self) (tag self) (namespaces self)
         (stack self) (text self) (title self) (pageid self)
         (redirect self) (model self) (format self) (attrs self) (data self)
         (word_cb_calls self) out (stdout self).

(** [print(...)] *)
Definition print (self : WiktionaryTarget) (d : diag) :=
  Target (capture_redirects self) (tag self) (namespaces self)
         (stack self) (text self) (title self) (pageid self)
         (redirect self) (model self) (format self) (attrs self) (data self)
         (word_cb_calls self) (output_txt self) (stdout self ++ [d]).

(** The first four lines of [start] and of [end]: the tag without what
    precedes its first closing brace, in lower case. *)
Definition local_name (tag : string) : string :=
  PyStr.lower
    match PyStr.after_first_rbrace tag with
    | Some r => r
    | None => tag
    end.

(** [x in (s1, s2, ...)] for an attribute that may be [None]. *)
Definition opt_mem (x : option string) (l : list string) : bool :=
  match x with
  | Some s => PyStr.mem s l
  | None => false
  end.

(** The truth value of an attribute that is [None] or a string. *)
Definition truthy (x : option string) : bool :=
  match x with
  | Some s => negb (s =? "")%string
  | None => false
  end.

(** [WiktionaryTarget.start(tag, attrs)] *)
Definition start (self : WiktionaryTarget) (tag : string)
    (attrs : list (string * string)) : WiktionaryTarget :=
  let tag := local_name tag in
  let attrs :=
    fold_left
      (fun d kv => dict_set String.eqb d (PyStr.sub_upto_rbrace (fst kv)) (snd kv))
      attrs [] in
  let self := opened self tag attrs in
  if (tag =? "page")%string then fresh_page self else self.

Section Target.

(** The wikitextparser expression of [parse_text], as above. *)
Variable first_arg : string -> option string.

(** [WiktionaryTarget.end(tag)] *)
Definition end_ (self : WiktionaryTarget) (tag : string)
    : result WiktionaryTarget :=
  let tag := local_name tag in
  match stack self with
  | [] => Raise (IndexError PopEmptyStack)
  | ptag :: rest =>
      if negb (tag =? ptag)%string then Raise (AssertionError StackMismatch)
      else
        match attrs self with
        | None => Raise AttributeError
        | Some attrs =>
            match data self with
            | None => Raise TypeError
            | Some chunks =>
                let data := PyStr.strip (PyStr.join chunks) in
                let self := popped self rest in
                if PyStr.mem tag ignore_tags then Ok self
                else if existsb (fun t => PyStr.mem t rest) stack_ignore
                then Ok self
                else if (tag =? "id")%string then
                  if PyStr.mem "revision" rest then Ok self
                  else Ok (set_pageid self (Some data))
                else if (tag =? "title")%string then
                  Ok (set_title self (Some data))
                else if (tag =? "text")%string then
                  Ok (set_text self (Some data))
                else if (tag =? "redirect")%string then
                  Ok (set_redirect self (dict_get String.eqb attrs "title"))
                else if (tag =? "namespace")%string then
                  Ok (set_namespace self (dict_get String.eqb attrs "key")
                                    data)
                else if (tag =? "model")%string then
                  let self := set_model self (Some data) in
                  if negb (PyStr.mem data
                             ["wikitext"; "Scribunto"; "css"; "javascript";
                              "sanitized-css"])
                  then Ok (print self (UNRECOGNIZED_MODEL data))
                  else Ok self
                else if (tag =? "format")%string then
                  let self := set_format self (Some data) in
                  if negb (PyStr.mem data
                             ["text/x-wiki"; "text/plain";
                              "text/css"; "text/javascript"])
                  then Ok (print self (UNRECOGNIZED_FORMAT data))
                  else Ok self
                else if (tag =? "page")%string then
                  if opt_mem (model self)
                       ["css"; "sanitized-css"; "javascript"; "Scribunto"]
                  then Ok self
                  else if truthy (redirect self) then
                    if capture_redirects self then
                      match redirect self with
                      | Some r =>
                          Ok (word_cb self (RedirectData r (title self)))
                      | None => Ok self
                      end
                    else Ok self
                  else
                    bind (parse_text first_arg (title self) (text self)
                                     (output_txt self))
                         (fun out => Ok (set_output_txt self out))
                else
                  Ok (print self (UNSUPPORTED tag (String.length data) attrs))
            end
        end
  end.

(** [WiktionaryTarget.data(data)] *)
Definition data_ (self : WiktionaryTarget) (d : string)
    : result WiktionaryTarget :=
  match data self with
  | None => Raise AttributeError
  | Some chunks => Ok (set_data self (Some (chunks ++ [d])))
  end.

(** ** The driver: [parse_wiktionary] *)

(** What the XML parser tells its target, in document order. *)
Inductive event : Type :=
  | StartTag (tag : string) (attrs : list (string * string))
  | EndTag (tag : string)
  | CharacterData (text : string).

Definition handle (self : WiktionaryTarget) (ev : event)
    : result WiktionaryTarget :=
  match ev with
  | StartTag t a => Ok (start self t a)
  | EndTag t => end_ self t
  | CharacterData d => data_ self d
  end.

(** [etree.parse(wikt_f, parser)]: the events are handed over one by one
    and the first exception ends the run. *)
Fixpoint feed (self : WiktionaryTarget) (evs : list event)
    : result WiktionaryTarget :=
  match evs with
  | [] => Ok self
  | ev :: r => bind (handle self ev) (fun self' => feed self' r)
  end.

(** [parse_wiktionary(path, word_cb, ..., redirects)] on a file whose XML
    events are [evs]; it returns the context. *)
Definition parse_wiktionary (evs : list event) (redirects : bool)
    : result WiktionaryTarget :=
  feed (init redirects) evs.

End Target.

(** ** Templates *)

Definition backslash : string := String (ascii_of_nat 92) EmptyString.

(** These Wiktionary templates are silently ignored. *)
Definition ignored_templates : list string :=
  ["-"; "="; "*"; "!"; ","; "..."; "AD"; "BCE"; "B.C.E."; "Book-B"; "C.";
   "CE"; "C.E."; "BC"; "B.C."; "A.D."; "Clade"; "CURRENTYEAR";
   "EtymOnLine"; "EtymOnline"; "IPAchar"; "LR"; "PAGENAME"; "Q";
   "Webster 1913"; backslash; "abbreviation-old"; "af"; "affix"; "altcaps";
   "anchor"; "ante"; "attention"; "attn"; "bor"; "borrowed"; "bottom";
   "bottom2"; "bottom3"; "bottom4"; "bullet"; "checksense"; "circa";
   "circa2"; "cite"; "cite book"; "Cite news"; "cite news"; "cite-book";
   "cite-journal"; "cite-magazine"; "cite-news"; "cite-newgroup";
   "cite-song"; "cite-text"; "cite-video"; "cite-web"; "cite web"; "cog";
   "col-top"; "col-bottom"; "datedef"; "def-date"; "defdate"; "defdt";
   "defn"; "der"; "der-bottom"; "der-bottom2"; "der-bottom3";
   "der-bottom4"; "der-mid2"; "der-mid3"; "der-mid4"; "der-mid"; "derived";
   "dot"; "doublet"; "eggcorn of"; "ellipsis"; "em dash"; "en dash";
   "etyl"; "example needed"; "examples"; "examples-right"; "frac"; "g";
   "gloss-stub"; "glossary"; "hyp2"; "hyp-top"; "hyp-mid"; "hyp-mid3";
   "hyp-bottom3"; "hyp-bottom"; "inh"; "inherited"; "interwiktionary";
   "ISO 639"; "jump"; "katharevousa"; "ko-inline"; "lang"; "list"; "ll";
   "lookfrom"; "m"; "mention"; "mid2"; "mid3"; "mid4"; "mid4"; "middot";
   "multiple images"; "nb..."; "nbsp"; "ndash"; "no entry"; "noncog";
   "noncognate"; "nowrap"; "nuclide"; "overline"; "phrasebook"; "pedia";
   "pedialite"; "picdic"; "picdiclabel"; "picdiclabel/new"; "pos_v";
   "post"; "quote-book"; "quote-journal"; "quote-magazine"; "quote-news";
   "quote-newsgroup"; "quote-song"; "quote-text"; "quote-video";
   "quote-web"; "redirect"; "rel-bottom"; "rel-mid"; "rel-mid2";
   "rel-mid3"; "rel-mid4"; "rfap"; "rfc"; "rfc-auto"; "rfc-def";
   "rfc-header"; "rfc-level"; "rfc-subst"; "rfc-tsort"; "rfc-sense";
   "rfcite-sense"; "rfd-redundant"; "rfd-sense"; "rfdate"; "rfdatek";
   "rfdef"; "rfe"; "rfex"; "rfexample"; "rfm-sense"; "rfgloss"; "rfquote";
   "rfquote-sense"; "rfquotek"; "rft-sense"; "rfv-sense"; "rhymes";
   "rhymes"; "see"; "see also"; "seeCites"; "seemoreCites"; "seemorecites";
   "seeMoreCites"; "seeSynonyms"; "sic"; "smallcaps"; "soplink"; "spndash";
   "stroke order"; "stub-gloss"; "sub"; "suffixsee"; "sup"; "syndiff";
   "t-check"; "t+check"; "table:colors/fi"; "top2"; "top3"; "top4";
   "translation only"; "trans-mid"; "trans-bottom"; "uncertain"; "unk";
   "unsupported"; "used in phrasal verbs"; "was wotd"; "wikisource1911Enc";
   "wikivoyage"; "ws"; "ws link"; "zh-hg"].

(** Templates that will be replaced by the value of their first argument
    when cleaning up titles/values.  In the source no comma stands between
    the literals of lines 428 and 429, which Python reads as the one
    string that joins them. *)
Definition clean_arg1_tags : list string :=
  ["..."; "Br. English form of"; "W"; "Wikipedia"; "abb";
   "abbreviation of"; "abbreviation"; "acronym of"; "agent noun of";
   "alt form of"; "alt form"; "alt form"; "alt-form"; "alt-sp"; "altcaps";
   "alternate form of"; "alternate spelling of";
   "alternative capitalisation of"; "alternative capitalization of";
   "alternative case form of"; "alternative form of";
   "alternative name of"; "alternative name of"; "alternative plural of";
   "alternative spelling of"; "alternative term for";
   "alternative typography of"; "altform"; "altspell"; "altspelling";
   "apocopic form of"; "archaic form of"; "archaic spelling of";
   "aspirate mutation of"; "attributive form of"; "attributive of";
   "caret notation of"; "clip"; "clipping of"; "clipping";
   "common misspelling of"; "comparative of"; "contraction of";
   "dated form of"; "dated spelling of"; "deliberate misspelling of";
   "diminutive of"; "ellipsis of"; "ellipse of"; "elongated form of";
   "en-archaic second-person singular of";
   "en-archaic third-person singular of"; "en-comparative of";
   "en-irregular plural of"; "en-past of";
   "en-second person singular past of";
   "en-second-person singular past of"; "en-simple past of";
   "en-superlative of"; "en-third person singular of";
   "en-third-person singular of"; "euphemistic form of";
   "euphemistic spelling of"; "eye dialect of"; "eye dialect";
   "eye-dialect of"; "femine of"; "feminine noun of"; "feminine plural of";
   "feminine singular of"; "form of"; "former name of"; "gerund of";
   "hard mutation of"; "honoraltcaps"; "imperative of"; "informal form ofinformal spelling of"; "ja-l"; "ja-r"; "lenition of";
   "masculine plural of"; "masculine singular of"; "misconstruction of";
   "misspelling of"; "mixed mutation of"; "n-g"; "native or resident of";
   "nb..."; "neuter plural of"; "neuter singular of"; "ngd"; "nobr";
   "nominative plural of"; "non-gloss definition"; "non-gloss";
   "nonstandard form of"; "nonstandard spelling of"; "nowrap";
   "obsolete form of"; "obsolete spelling of"; "obsolete typography of";
   "overwrite"; "past of"; "past sense of"; "past tense of"; "pedlink";
   "pedlink"; "plural form of"; "plural of"; "present of";
   "present particle of"; "present tense of"; "pronunciation spelling of";
   "pronunciation spelling"; "pronunciation respelling of"; "rare form of";
   "rare spelling of"; "rareform"; "second person singular past of";
   "second-person singular of"; "second-person singular past of";
   "short for"; "short form of"; "short of"; "singular form of";
   "singular of"; "slim-wikipedia"; "soft mutation of"; "standard form of";
   "standard spelling of"; "standspell"; "sub"; "sup"; "superlative of";
   "superseded spelling of"; "swp"; "taxlink"; "taxlinknew";
   "uncommon spelling of"; "unsupported"; "verb"; "vern"; "w"; "wikipedia";
   "wikisaurus"; "wikispecies"; "zh-m"].

(** Templates that will be replaced by their second argument. *)
Definition clean_arg2_tags : list string :=
  ["zh-l"; "ja-l"; "l"; "defn"; "w"; "m"; "mention"].

(** Templates that will be replaced by their third argument. *)
Definition clean_arg3_tags : list string :=
  ["w2"].

(** Templates that will be replaced by a value when cleaning up
    titles/values.  The replacements may refer to the first argument of
    the template using \1.  The pairs are those of the dictionary display,
    in its order. *)
Definition clean_replace_items : list (string * string) :=
  [("en dash", " - ");
   ("em dash", " - ");
   ("ndash", " - ");
   (backslash, " / ");
   ("...", "...");
   ("BCE", "BCE");
   ("B.C.E.", "B.C.E.");
   ("CE", "CE");
   ("C.E.", "C.E.");
   ("BC", "BC");
   ("B.C.", "B.C.");
   ("A.D.", "A.D.");
   ("AD", "AD");
   ("Latn-def", "latin character");
   ("sumti", "x\1");
   ("inflection of", "inflection of \1");
   ("initialism of", "initialism of \1");
   ("synonym of", "synonym of \1");
   ("given name", "\1 given name");
   ("forename", "\1 given name");
   ("historical given name", "\1 given name");
   ("surname", "surname");
   ("taxon", "taxonomic \1");
   ("SI-unit", "unit of measurement");
   ("SI-unit-abb2", "unit of measurement");
   ("SI-unit-2", "unit of measurement");
   ("SI-unit-np", "unit of measurement");
   ("gloss", "(\1)")].

(** The dictionary [clean_replace_map]: in a dictionary display a key
    given twice keeps its last value. *)
Definition clean_replace_map : list (string * string) :=
  fold_left (fun d kv => dict_set String.eqb d (fst kv) (snd kv))
            clean_replace_items [].

Module Template.

(** The spans that may enclose a bar or a pair of closing braces. *)
Inductive span : Type :=
  | Braces      (* {{ ... }} *)
  | Link        (* [[ ... ]] *)
  | Bracket.    (* [ ... ] *)

Definition is_char (n : nat) (c : ascii) : bool := PyStr.code c =? n.

Definition next_is (n : nat) (r : string) : bool :=
  match r with
  | String c _ => is_char n c
  | EmptyString => false
  end.

Definition push (c : ascii) (cur : string) : string :=
  (cur ++ String c EmptyString)%string.

(** Modelled from the spec: the argument parsing of the Template
    Normalizer (section 4.2), which is not in the source file: bars and
    closing braces inside a nested balanced span of braces, of double
    brackets or of brackets do not end an argument or the template.
    [split s skip open cur parts n] reads the inside of a template, [s]
    being the text after its two opening braces.  [open] holds the spans
    that are open, innermost first, [cur] the part being read, [parts] the
    parts already closed by a bar and [n] the number of characters read.
    [skip] is set on the second character of a two-character token.  The
    result is the list of parts (the name first, then the arguments) and
    the length of the text read, the two closing braces included; there is
    none when the text ends before the template does. *)
Fixpoint split (s : string) (skip : bool) (open : list span) (cur : string)
    (parts : list string) (n : nat) : option (list string * nat) :=
  match s with
  | EmptyString => None
  | String c r =>
      if skip then split r false open (push c cur) parts (S n)
      else if is_char 123 c && next_is 123 r then
        split r true (Braces :: open) (push c cur) parts (S n)
      else if is_char 125 c && next_is 125 r then
        match open with
        | [] => Some (parts ++ [cur], n + 2)
        | Braces :: open' => split r true open' (push c cur) parts (S n)
        | _ => split r false open (push c cur) parts (S n)
        end
      else if is_char 91 c && next_is 91 r then
        split r true (Link :: open) (push c cur) parts (S n)
      else if is_char 93 c && next_is 93 r then
        match open with
        | Link :: open' => split r true open' (push c cur) parts (S n)
        | Bracket :: open' => split r false open' (push c cur) parts (S n)
        | _ => split r false open (push c cur) parts (S n)
        end
      else if is_char 91 c then
        split r false (Bracket :: open) (push c cur) parts (S n)
      else if is_char 93 c then
        match open with
        | Bracket :: open' => split r false open' (push c cur) parts (S n)
        | _ => split r false open (push c cur) parts (S n)
        end
      else if is_char 124 c then
        match open with
        | [] => split r false open EmptyString (parts ++ [cur]) (S n)
        | _ => split r false open (push c cur) parts (S n)
        end
      else split r false open (push c cur) parts (S n)
  end.

(** Modelled from the spec: the template occurrence that opens at the
    start of [s], when there is one: its parts and its length, the four
    braces included. *)
Definition at_start (s : string) : option (list string * nat) :=
  match s with
  | String c1 (String c2 r) =>
      if is_char 123 c1 && is_char 123 c2 then
        match split r false [] EmptyString [] 0 with
        | Some (parts, n) => Some (parts, n + 2)
        | None => None
        end
      else None
  | _ => None
  end.

(** The text after the first equals sign of [s]. *)
Fixpoint after_equals (s : string) : option string :=
  match s with
  | EmptyString => None
  | String c r => if is_char 61 c then Some r else after_equals r
  end.

End Template.

(** A reference instance of the wikitextparser expression
    [wtp.parse(aword).templates[0].arguments[0].value], for the lines that
    are evaluated below: the first template that can be read on the line,
    its first argument, and of that the whole text, or the text after its
    first equals sign for an argument given by name.  It agrees with the
    library on lines whose first template holds no nested markup. *)
Fixpoint first_template (s : string) : option (list string) :=
  match Template.at_start s with
  | Some (parts, _) => Some parts
  | None =>
      match s with
      | EmptyString => None
      | String _ r => first_template r
      end
  end.

Definition wtp_first_arg (aword : string) : option string :=
  match first_template aword with
  | Some (_ :: a :: _) =>
      match Template.after_equals a with
      | Some v => Some v
      | None => Some a
      end
  | _ => None
  end.

(** ** The template normalizer *)

Module Normalizer.

(** Modelled from the spec: an argument given by name, which does not
    count as positional: a key of letters, digits, hyphens and
    underscores, then an equals sign (the key of [arg_re] in the source
    file). *)
Definition is_key_char (c : ascii) : bool :=
  let n := PyStr.code c in
  PyStr.between 48 57 n || PyStr.between 65 90 n || PyStr.between 97 122 n
  || (n =? 45) || (n =? 95).

Fixpoint named_from (s : string) (seen : bool) : bool :=
  match s with
  | EmptyString => false
  | String c r =>
      if Template.is_char 61 c then seen
      else if is_key_char c then named_from r true
      else false
  end.

Definition is_named (a : string) : bool := named_from a false.

Definition positional (args : list string) : list string :=
  filter (fun a => negb (is_named a)) args.

(** Modelled from the spec: the literal [lit] with every \1 replaced by
    [a], which is put in as it is. *)
Fixpoint expand (lit : string) (skip : bool) (a : string) : string :=
  match lit with
  | EmptyString => EmptyString
  | String c r =>
      if skip then expand r false a
      else if Template.is_char 92 c && Template.next_is 49 r
      then (a ++ expand r true a)%string
      else String c (expand r false a)
  end.

Definition mentions_arg1 (lit : string) : bool :=
  PyStr.contains (backslash ++ "1")%string lit.

(** Modelled from the spec: the rewriting of one template occurrence by
    the Template Normalizer, whose function is not in the source file (the
    tables it reads are).  The rules are those of section 4.2 in their
    order: a template of the drop-set, [ignored_templates], that has a
    literal replacement in [clean_replace_map] is replaced by it, \1
    standing for the first positional argument; a template of the first,
    second or third argument list is replaced by that argument; any
    other template of the drop-set is deleted; any other template is left
    as it is ([None]).  A template that lacks the argument its rule needs
    is left as it is. *)
Definition rewrite (name : string) (args : list string) : option string :=
  let pos := positional args in
  match (if PyStr.mem name ignored_templates
         then dict_get String.eqb clean_replace_map name
         else None) with
  | Some lit =>
      if mentions_arg1 lit then
        match nth_error pos 0 with
        | Some a => Some (expand lit false a)
        | None => None
        end
      else Some lit
  | None =>
      if PyStr.mem name clean_arg1_tags then nth_error pos 0
      else if PyStr.mem name clean_arg2_tags then nth_error pos 1
      else if PyStr.mem name clean_arg3_tags then nth_error pos 2
      else if PyStr.mem name ignored_templates then Some EmptyString
      else None
  end.

(** Modelled from the spec: [normalize] of the Template Normalizer, which
    is not in the source file.  One pass from left to right: a recognised
    template is replaced and the scan goes on after it, so that the
    occurrences rewritten do not overlap and the text put in is not
    rewritten again; a template that is not recognised is copied whole; a
    pair of braces that opens no template is copied and the scan goes on
    behind it.  [pass] counts the characters of the template at hand
    still to pass over, copied when [keep] is set and dropped otherwise. *)
Fixpoint normalize_from (s : string) (pass : nat) (keep : bool) : string :=
  match s with
  | EmptyString => EmptyString
  | String c r =>
      match pass with
      | S k =>
          if keep then String c (normalize_from r k keep)
          else normalize_from r k keep
      | O =>
          match Template.at_start s with
          | Some (name :: args, n) =>
              match rewrite name args with
              | Some t => (t ++ normalize_from r (Nat.pred n) false)%string
              | None => String c (normalize_from r (Nat.pred n) true)
              end
          | _ => String c (normalize_from r 0 false)
          end
      end
  end.


End Normalizer.


(** ** Test pages *)

Definition nl : string := String (ascii_of_nat 10) EmptyString.

(** The lines of a page body, one per line of text. *)
Definition unlines (ls : list string) : string := String.concat nl ls.

(** The events of a dump that holds one page: its title, the attributes of
    its redirect element when it has one, and its revision with the model,
    the format and the text. *)
Definition page_events (page_title : string)
    (redirect_attrs : option (list (string * string)))
    (page_model body : string) : list event :=
  [StartTag "mediawiki" []; StartTag "page" [];
   StartTag "title" []; CharacterData page_title; EndTag "title";
   StartTag "ns" []; CharacterData "110"; EndTag "ns";
   StartTag "id" []; CharacterData "7"; EndTag "id"]
  ++ match redirect_attrs with
     | Some a => [StartTag "redirect" a; EndTag "redirect"]
     | None => []
     end
  ++ [StartTag "revision" [];
      StartTag "id" []; CharacterData "70"; EndTag "id";
      StartTag "model" []; CharacterData page_model; EndTag "model";
      StartTag "format" []; CharacterData "text/x-wiki"; EndTag "format";
      StartTag "text" [("bytes", "1")]; CharacterData body; EndTag "text";
      EndTag "revision"; EndTag "page"; EndTag "mediawiki"].

Definition happy_body : string :=
  unlines ["===Synonyms==="; "{{l|en|glad}}"; "===Antonyms==="; "{{l|en|sad}}"].

(** What a run hands to [word_cb] and writes to Output.txt. *)
Definition outputs (r : result WiktionaryTarget)
    : result (list redirect_data * list entry) :=
  bind r (fun self => Ok (word_cb_calls self, output_txt self)).

(** The seven labels that open a relation section. *)
Definition headers : list string :=
  ["Synonyms"; "Antonyms"; "Hyponyms"; "Hypernyms"; "Instances";
   "Meronyms"; "Holonyms"].

(** The values of [key] under which a line is collected. *)
Definition bucket_keys : list string := ["a"; "b"; "c"; "d"; "e"; "f"; "g"].

(** A line that matches one of the seven relation headers. *)
Definition is_header (aword : string) : bool :=
  existsb (fun h => (h =? label aword)%string) headers.

Definition collecting (key : option string) : bool :=
  existsb (key_is key) bucket_keys.

(** ** States and predicates used in the statements *)

(** A module page about to be closed: it has a qualifying title, a text
    and a redirect target, and redirects are captured. *)
Definition module_page : WiktionaryTarget :=
  Target true (Some "revision") [] ["page"; "mediawiki"]
         (Some happy_body) (Some "Thesaurus:happy") (Some "7")
         (Some "glad") (Some "Scribunto") (Some "text/plain")
         (Some []) (Some []) [] [] [].

(** A revision whose model element is about to be closed with the text
    " foo ". *)
Definition odd_model : WiktionaryTarget :=
  Target false (Some "model") [] ["model"; "revision"; "page"; "mediawiki"]
         None (Some "Thesaurus:happy") (Some "7") None None None
         (Some []) (Some [" fo"; "o "]) [] [] [].

(** A redirect page about to be closed, redirects disabled: it has a
    qualifying title and no text. *)
Definition redirect_page : WiktionaryTarget :=
  Target false (Some "revision") [] ["page"; "mediawiki"]
         None (Some "Thesaurus:glad") (Some "7")
         (Some "Thesaurus:happy") (Some "wikitext") (Some "text/x-wiki")
         (Some []) (Some []) [] [] [].

(** Once a start tag has been seen, [attrs] and [data] are assigned: the
    states a run goes through with an open tag satisfy the assumptions
    made above on these two attributes. *)
Definition assigned (self : WiktionaryTarget) : Prop :=
  (exists a, attrs self = Some a) /\ (exists d, data self = Some d).

Definition untouched (self : WiktionaryTarget) : Prop :=
  attrs self = None /\ data self = None /\ stack self = [].

(** An argument without brace, bracket, bar or equals sign. *)
Definition plain_char (c : ascii) : bool :=
  negb (Template.is_char 123 c || Template.is_char 125 c
        || Template.is_char 91 c || Template.is_char 93 c
        || Template.is_char 124 c || Template.is_char 61 c).

Fixpoint plain (a : string) : bool :=
  match a with
  | EmptyString => true
  | String c r => plain_char c && plain r
  end.

(** ** Notions used in the further properties *)

(** A text of [n] spaces. *)
Fixpoint blanks (n : nat) : string :=
  match n with
  | O => EmptyString
  | S k => String " " (blanks k)
  end.

(** A namespace declaration about to be closed; its key is already
    recorded with another name. *)
Definition namespace_decl : WiktionaryTarget :=
  Target false (Some "namespace") [(Some "110", "Wikisaurus")]
         ["namespace"; "namespaces"; "siteinfo"; "mediawiki"]
         None None None None None None
         (Some [("key", "110")]) (Some [" Thesaurus "]) [] [] [].

(** A redirect page about to be closed, redirects captured. *)
Definition redirect_page_on : WiktionaryTarget :=
  Target true (Some "revision") [] ["page"; "mediawiki"]
         None (Some "Thesaurus:glad") (Some "7")
         (Some "Thesaurus:happy") (Some "wikitext") (Some "text/x-wiki")
         (Some []) (Some []) [] [] [].

(** The events of a well-formed piece of a document: character data and
    elements, every element closed by the end tag of its name. *)
Inductive content : list event -> Prop :=
  | content_nil : content []
  | content_data (d : string) (evs : list event) :
      content evs -> content (CharacterData d :: evs)
  | content_elem (t : string) (a : list (string * string))
      (body : list event) (t' : string) (evs : list event) :
      local_name t' = local_name t ->
      content body -> content evs ->
      content (StartTag t a :: body ++ EndTag t' :: evs).

(** The end tags of page elements among the events. *)
Definition is_page_end (ev : event) : bool :=
  match ev with
  | EndTag t => (local_name t =? "page")%string
  | _ => false
  end.

Definition page_ends (evs : list event) : nat :=
  length (filter is_page_end evs).

(** The six attributes that [start] clears on a page. *)
Definition page_fields (self : WiktionaryTarget) :=
  (text self, title self, pageid self, redirect self, model self,
   format self).

(** The attribute dictionary that [start] stores. *)
Definition attrs_of (attrs : list (string * string))
    : list (string * string) :=
  fold_left
    (fun d kv => dict_set String.eqb d (PyStr.sub_upto_rbrace (fst kv)) (snd kv))
    attrs [].

(** A text without a closing brace. *)
Fixpoint no_rbrace (s : string) : bool :=
  match s with
  | EmptyString => true
  | String c r => negb (PyStr.code c =? 125) && no_rbrace r
  end.

(** A text without any character of the class [\w]. *)
Fixpoint nonword (s : string) : bool :=
  match s with
  | EmptyString => true
  | String c r => negb (PyStr.isword c) && nonword r
  end.

(** The seven relation sections: header label, value of [key], list. *)
Definition sections
    : list (string * string * (string -> buckets -> buckets)) :=
  [("Synonyms", "a", add_syno); ("Antonyms", "b", add_anto);
   ("Hyponyms", "c", add_hypo); ("Hypernyms", "d", add_hyper);
   ("Instances", "e", add_inst); ("Meronyms", "f", add_mero);
   ("Holonyms", "g", add_holy)].

(** All the values collected in the seven lists. *)
Definition values (b : buckets) : list string :=
  syno b ++ anto b ++ hypo b ++ hyper b ++ inst b ++ mero b ++ holy b.

(** [b'] holds the lists of [b], each with values added at its end. *)
Definition grown (b b' : buckets) : Prop :=
  (exists l, syno b' = syno b ++ l) /\ (exists l, anto b' = anto b ++ l)
  /\ (exists l, hypo b' = hypo b ++ l) /\ (exists l, hyper b' = hyper b ++ l)
  /\ (exists l, inst b' = inst b ++ l) /\ (exists l, mero b' = mero b ++ l)
  /\ (exists l, holy b' = holy b ++ l).

(** The user name and id of a contributor, inside a revision. *)
Definition contributor_id : WiktionaryTarget :=
  Target false (Some "id") []
         ["id"; "contributor"; "revision"; "page"; "mediawiki"]
         None (Some "Thesaurus:happy") (Some "7") None None None
         (Some []) (Some ["4711"]) [] [] [].

(** The page id element of a page, about to be closed. *)
Definition page_id : WiktionaryTarget :=
  Target false (Some "id") [] ["id"; "page"; "mediawiki"]
         None (Some "Thesaurus:happy") None None None None
         (Some []) (Some ["7"]) [] [] [].

(** The names for which [end] has a branch of its own. *)
Definition handled_tags : list string :=
  ["id"; "title"; "text"; "redirect"; "namespace"; "model"; "format";
   "page"].

(** * Properties *)

Unset Implicit Arguments.

(** ** Strings *)

Lemma prefix_true_iff (sub s : string) :
  String.prefix sub s = true <-> exists suf, s = (sub ++ suf)%string.
Proof.
  revert s; induction sub as [|c sub IH]; intros s.
  - split; [intros _; exists s; reflexivity | now destruct s].
  - destruct s as [|d s]; simpl.
    + split; [discriminate | intros [suf H]; discriminate].
    + destruct (ascii_dec c d) as [->|Hne].
      * rewrite IH. split; intros [suf H]; exists suf.
        -- now rewrite H.
        -- now injection H.
      * split; [discriminate|].
        intros [suf H]. injection H as H1 _. now elim Hne.
Qed.

(** [contains] is the substring test. *)
Lemma contains_true_iff (sub s : string) :
  PyStr.contains sub s = true
  <-> exists pre suf, s = (pre ++ sub ++ suf)%string.
Proof.
  induction s as [|c s IH].
  - cbn [PyStr.contains]. destruct (String.prefix sub "") eqn:E.
    + split; [intros _|reflexivity].
      apply prefix_true_iff in E as [suf E]. now exists EmptyString, suf.
    + split; [discriminate|].
      intros (pre & suf & H). destruct pre; [|discriminate].
      simpl in H. rewrite <- E. apply prefix_true_iff. now exists suf.
  - cbn [PyStr.contains]. destruct (String.prefix sub (String c s)) eqn:E.
    + split; [intros _|reflexivity].
      apply prefix_true_iff in E as [suf E]. now exists EmptyString, suf.
    + rewrite IH. split.
      * intros (pre & suf & H). exists (String c pre), suf. simpl. now rewrite H.
      * intros (pre & suf & H). destruct pre as [|d pre].
        -- simpl in H.
           assert (T : String.prefix sub (String c s) = true)
             by (apply prefix_true_iff; now exists suf).
           congruence.
        -- simpl in H. injection H as _ H. now exists pre, suf.
Qed.

(** ** The loop of [parse_text] *)

Section ClassifierFacts.

Variable first_arg : string -> option string.


Lemma next_key_not_header (key : option string) (aword : string) :
  is_header aword = false ->
  next_key key aword
  = if is_sentinel aword then Some "Dont care now" else key.
Proof.
  unfold is_header, headers, next_key. cbn [existsb].
  intros H.
  repeat (apply orb_false_elim in H; destruct H as [E H]; rewrite E; clear E).
  reflexivity.
Qed.

Lemma next_key_header (key : option string) (aword : string) :
  is_header aword = true ->
  exists k, In k bucket_keys /\ next_key key aword = Some k.
Proof.
  unfold is_header, headers, next_key, bucket_keys. cbn [existsb In].
  intros H.
  repeat match goal with
         | |- context [if ?c then _ else _] =>
             destruct c eqn:?; [eexists; split; [|reflexivity]; tauto|]
         end.
  cbn in H. discriminate.
Qed.

Lemma collecting_false (key : option string) (k : string) :
  collecting key = false -> In k bucket_keys -> key_is key k = false.
Proof.
  unfold collecting. intros H Hk.
  destruct (key_is key k) eqn:E; [|reflexivity].
  rewrite <- H. symmetry. apply existsb_exists. now exists k.
Qed.

(** Outside a relation section the body of the loop appends nothing. *)
Lemma scan_line_idle (key : option string) (b : buckets) (aword : string) :
  collecting (next_key key aword) = false ->
  scan_line first_arg (key, b) aword
  = (if is_list_marker aword then key else next_key key aword, b).
Proof.
  intros H. unfold scan_line. destruct (is_list_marker aword); [reflexivity|].
  f_equal. unfold block.
  repeat (rewrite (collecting_false _ _ H); [|unfold bucket_keys; cbn; tauto]).
  reflexivity.
Qed.




(** Lines that match no header, read from the start of a page, fill no
    list. *)
Lemma scan_lines_no_header (ls : list string) :
  Forall (fun l => is_header l = false) ls ->
  snd (scan_lines first_arg (None, no_buckets) ls) = no_buckets.
Proof.
  assert (G : forall key, collecting key = false ->
              Forall (fun l => is_header l = false) ls ->
              snd (scan_lines first_arg (key, no_buckets) ls) = no_buckets).
  { intros key Hk H. revert key Hk.
    induction H as [|l ls Hl _ IH]; intros key Hk; [reflexivity|].
    unfold scan_lines in *. cbn [fold_left].
    assert (Hn : collecting (next_key key l) = false).
    { rewrite (next_key_not_header _ _ Hl). now destruct (is_sentinel l). }
    rewrite (scan_line_idle _ _ _ Hn).
    apply IH. now destruct (is_list_marker l). }
  now apply G.
Qed.

End ClassifierFacts.

(** ** The classifier *)

Lemma marker_not_header (aword : string) :
  is_list_marker aword = true -> is_header aword = false.
Proof.
  unfold is_list_marker. intros H.
  apply orb_true_iff in H as [H|H];
    apply String.eqb_eq in H; subst aword; reflexivity.
Qed.

(** A header line selects its list and is not itself collected. *)
Lemma scan_line_header (first_arg : string -> option string)
    (key : option string) (b : buckets) (h : string) :
  is_header h = true ->
  exists k, In k bucket_keys /\ scan_line first_arg (key, b) h = (Some k, b).
Proof.
  intros H. unfold scan_line.
  destruct (is_list_marker h) eqn:M.
  - apply marker_not_header in M. congruence.
  - unfold is_header, headers in H. cbn [existsb] in H.
    unfold next_key, block, bucket_keys. cbn [In].
    repeat match goal with
           | |- context [if (?x =? label h)%string then _ else _] =>
               destruct (x =? label h)%string eqn:?;
               [eexists; split; [|cbn; reflexivity]; tauto|]
           end.
    cbn in H. discriminate.
Qed.



(** The sentinel test is on the whole line: the same labels at another
    heading level leave the current list open. *)
Example other_heading_levels_are_not_sentinels :
  is_sentinel "=====See also=====" = false
  /\ is_sentinel "===Various===" = false
  /\ scan_lines wtp_first_arg (Some "a", no_buckets)
       ["=====See also====="; "{{ws|glad}}"]
     = (Some "a", Buckets ["glad"] [] [] [] [] [] []).
Proof. repeat split; reflexivity. Qed.

(** A page that qualifies, has at least one line and no line matching a
    relation header yields one entry whose seven lists are empty. *)
Lemma no_header_no_relation (first_arg : string -> option string)
    (page_title body : string) (out : list entry) :
  PyStr.contains "Thesaurus:" page_title = true ->
  wordss_of body <> [] ->
  Forall (fun l => is_header l = false) (wordss_of body) ->
  exists w,
    parse_text first_arg (Some page_title) (Some body) out
    = Ok (out ++ [Entry w [] [] [] [] [] [] []]).
Proof.
  intros Ht Hne Hall. unfold parse_text. rewrite Ht. cbn [negb].
  destruct (wordss_of body) as [|w0 ws] eqn:E; [congruence|].
  pose proof (scan_lines_no_header first_arg _ Hall) as Hb.
  destruct (scan_lines first_arg (None, no_buckets) (w0 :: ws)) as [k b'].
  cbn [snd] in Hb. subst b'. now exists w0.
Qed.

(** C4: on a qualifying page whose text is empty, [parse_text] raises
    IndexError at [wordss[0]] instead of yielding an entry with empty
    lists; through the driver the same happens for an empty and for an
    all-blank text element, and the run ends there. *)
Theorem empty_body_raises (first_arg : string -> option string) :
  parse_text first_arg (Some "Thesaurus:happy") (Some "") []
  = Raise (IndexError FirstLine)
  /\ outputs (parse_wiktionary first_arg
                (page_events "Thesaurus:happy" None "wikitext" "") false)
     = Raise (IndexError FirstLine)
  /\ outputs (parse_wiktionary first_arg
                (page_events "Thesaurus:happy" None "wikitext"
                             (unlines ["  "; " "; ""])) false)
     = Raise (IndexError FirstLine).
Proof. repeat split; reflexivity. Qed.

(** The assertions of [parse_text] come before the test on the title. *)
Lemma parse_text_asserts (first_arg : string -> option string)
    (w t : option string) (out : list entry) :
  parse_text first_arg None t out = Raise (AssertionError WordNotStr)
  /\ (w <> None ->
      parse_text first_arg w None out = Raise (AssertionError TextNotStr)).
Proof.
  split; [reflexivity|]. intros H. destruct w; [reflexivity | contradiction].
Qed.

(** C10: [parse_text] returns at once, writing nothing, when the title
    does not hold "Thesaurus:" as a substring; when it holds it anywhere,
    as a prefix or not, the page is classified and, its text having a
    line, one entry is written. *)
Theorem thesaurus_title_filter (first_arg : string -> option string)
    (page_title body : string) (out : list entry) :
  (~ (exists pre suf, page_title = (pre ++ "Thesaurus:" ++ suf)%string) ->
   parse_text first_arg (Some page_title) (Some body) out = Ok out)
  /\ (forall pre suf,
        page_title = (pre ++ "Thesaurus:" ++ suf)%string ->
        wordss_of body <> [] ->
        exists e,
          parse_text first_arg (Some page_title) (Some body) out
          = Ok (out ++ [e])).
Proof.
  split.
  - intros H. unfold parse_text.
    destruct (PyStr.contains "Thesaurus:" page_title) eqn:E; [|reflexivity].
    apply contains_true_iff in E. contradiction.
  - intros pre suf Ht Hne. unfold parse_text.
    assert (E : PyStr.contains "Thesaurus:" page_title = true)
      by (apply contains_true_iff; now exists pre, suf).
    rewrite E. cbn [negb].
    destruct (wordss_of body) as [|w0 ws]; [congruence|].
    destruct (scan_lines first_arg (None, no_buckets) (w0 :: ws)) as [k b].
    now eexists.
Qed.

Lemma thesaurus_title_filter_witness :
  parse_text wtp_first_arg (Some "Glossary:happy") (Some happy_body) [] = Ok []
  /\ exists e,
       parse_text wtp_first_arg (Some "Appendix:Thesaurus:happy")
                  (Some happy_body) []
       = Ok ([] ++ [e]).
Proof.
  split.
  - apply (proj1 (thesaurus_title_filter wtp_first_arg "Glossary:happy"
                    happy_body [])).
    intros H. apply contains_true_iff in H. vm_compute in H. discriminate.
  - apply (proj2 (thesaurus_title_filter wtp_first_arg
                    "Appendix:Thesaurus:happy" happy_body [])
             "Appendix:" "happy" eq_refl).
    vm_compute. discriminate.
Defined.

(** ** The XML target *)

(** Tests on literal strings are replaced by their value. *)
Ltac is_literal s :=
  lazymatch s with
  | EmptyString => idtac
  | String _ ?r => is_literal r
  end.

Ltac is_literal_list l :=
  lazymatch l with
  | nil => idtac
  | cons ?x ?r => is_literal x; is_literal_list r
  | ignore_tags => idtac
  end.

Ltac decide_tests :=
  repeat match goal with
         | |- context [PyStr.mem ?x ?l] =>
             is_literal x; is_literal_list l;
             let v := eval vm_compute in (PyStr.mem x l) in
             change (PyStr.mem x l) with v
         | |- context [String.eqb ?x ?y] =>
             is_literal x; is_literal y;
             let v := eval vm_compute in (String.eqb x y) in
             change (String.eqb x y) with v
         end;
  cbv iota.

(** The start of [end] on a stack whose top is the tag that closes. *)
Ltac end_open Htag Hs Ha Hd :=
  unfold end_; rewrite Hs, Htag; cbv beta zeta;
  rewrite ?String.eqb_refl; cbn [negb]; rewrite Ha, Hd; decide_tests.

Ltac break_if_in H :=
  match type of H with
  | context [if ?c then _ else _] => destruct c eqn:?
  | context [match ?c with Some _ => _ | None => _ end] => destruct c eqn:?
  end.

Lemma parse_text_raises (first_arg : string -> option string)
    (w t : option string) (out : list entry) (e : exn) :
  parse_text first_arg w t out = Raise e ->
  e = AssertionError WordNotStr \/ e = AssertionError TextNotStr
  \/ e = IndexError FirstLine.
Proof.
  unfold parse_text. intros H.
  destruct w; [|injection H as <-; tauto].
  destruct t; [|injection H as <-; tauto].
  destruct (negb _); [discriminate|].
  destruct (wordss_of _); [injection H as <-; tauto|].
  destruct (scan_lines _ _ _). discriminate.
Qed.

(** [end] returns only after it has popped the tag it closes. *)
Lemma end_pops (first_arg : string -> option string)
    (self self' : WiktionaryTarget) (tag : string) :
  end_ first_arg self tag = Ok self' ->
  stack self = local_name tag :: stack self'.
Proof.
  unfold end_. intros H.
  destruct (stack self) as [|ptag rest]; [discriminate|].
  destruct (String.eqb (local_name tag) ptag) eqn:E; [|discriminate].
  apply String.eqb_eq in E. subst ptag. cbn [negb] in H.
  destruct (attrs self); [|discriminate].
  destruct (data self); [|discriminate].
  repeat break_if_in H;
    try (injection H as <-; reflexivity); try discriminate.
  unfold bind in H.
  destruct (parse_text _ _ _ _); [|discriminate].
  injection H as <-. reflexivity.
Qed.

(** The only place where [end] fails on its first assertion is a stack
    whose top differs from the tag that closes. *)
Lemma end_mismatch_only (first_arg : string -> option string)
    (self : WiktionaryTarget) (tag : string) :
  end_ first_arg self tag = Raise (AssertionError StackMismatch) ->
  exists ptag rest, stack self = ptag :: rest /\ local_name tag <> ptag.
Proof.
  unfold end_. intros H.
  destruct (stack self) as [|ptag rest]; [discriminate|].
  exists ptag, rest. split; [reflexivity|].
  destruct (String.eqb (local_name tag) ptag) eqn:E.
  - exfalso. cbn [negb] in H.
    destruct (attrs self); [|discriminate].
    destruct (data self); [|discriminate].
    repeat break_if_in H; try discriminate.
    unfold bind in H.
    destruct (parse_text _ _ _ _) eqn:P; [discriminate|].
    injection H as ->.
    apply parse_text_raises in P. destruct P as [P|[P|P]]; discriminate.
  - now apply String.eqb_neq.
Qed.

Lemma end_empty_stack (first_arg : string -> option string)
    (self : WiktionaryTarget) (tag : string) :
  stack self = [] ->
  end_ first_arg self tag = Raise (IndexError PopEmptyStack).
Proof. intros H. unfold end_. now rewrite H. Qed.

(** C8: [end] pops the top of the stack; when the popped name differs
    from the tag that closes (lower case, namespace removed) the assertion
    fails and the run ends with that failure, and when they are equal the
    assertion does not fail and the stack is left without its top. *)
Theorem end_checks_stack_top (first_arg : string -> option string)
    (self : WiktionaryTarget) (tag ptag : string) (rest : list string) :
  stack self = ptag :: rest ->
  (local_name tag <> ptag ->
   end_ first_arg self tag = Raise (AssertionError StackMismatch)
   /\ forall evs,
        feed first_arg self (EndTag tag :: evs)
        = Raise (AssertionError StackMismatch))
  /\ (local_name tag = ptag ->
      end_ first_arg self tag <> Raise (AssertionError StackMismatch)
      /\ forall self',
           end_ first_arg self tag = Ok self' -> stack self' = rest).
Proof.
  intros Hs. split.
  - intros Hne.
    assert (E : end_ first_arg self tag = Raise (AssertionError StackMismatch)).
    { unfold end_. rewrite Hs.
      apply String.eqb_neq in Hne. now rewrite Hne. }
    split; [exact E|]. intros evs. cbn [feed handle]. now rewrite E.
  - intros Heq. split.
    + intros H. apply end_mismatch_only in H as (p & r & H1 & H2).
      rewrite Hs in H1. injection H1 as <- <-. contradiction.
    + intros self' H. apply end_pops in H. rewrite Hs in H.
      now injection H.
Qed.

Lemma end_checks_stack_top_witness :
  end_ wtp_first_arg (start (start (init false) "page" []) "Title" []) "text"
  = Raise (AssertionError StackMismatch)
  /\ end_ wtp_first_arg (start (start (init false) "page" []) "Title" [])
          "{ns}TITLE"
     <> Raise (AssertionError StackMismatch).
Proof.
  split.
  - apply (proj1 (end_checks_stack_top wtp_first_arg
                    (start (start (init false) "page" []) "Title" [])
                    "text" "title" ["page"] eq_refl)).
    vm_compute. discriminate.
  - apply (proj2 (end_checks_stack_top wtp_first_arg
                    (start (start (init false) "page" []) "Title" [])
                    "{ns}TITLE" "title" ["page"] eq_refl)).
    reflexivity.
Defined.

(** C7: closing a page whose model is css, sanitized-css, javascript or
    Scribunto calls no callback, writes no entry and prints nothing,
    whatever the other fields hold; the stack is popped and the next page
    start finds every page field cleared. *)
Theorem code_page_dropped (first_arg : string -> option string)
    (self : WiktionaryTarget) (tag : string) (rest : list string)
    (a : list (string * string)) (chunks : list string) (m : string) :
  local_name tag = "page" ->
  stack self = "page" :: rest ->
  attrs self = Some a ->
  data self = Some chunks ->
  model self = Some m ->
  PyStr.mem m ["css"; "sanitized-css"; "javascript"; "Scribunto"] = true ->
  end_ first_arg self tag = Ok (popped self rest)
  /\ word_cb_calls (popped self rest) = word_cb_calls self
  /\ output_txt (popped self rest) = output_txt self
  /\ stdout (popped self rest) = stdout self
  /\ forall tag' attrs',
       local_name tag' = "page" ->
       let next := start (popped self rest) tag' attrs' in
       stack next = "page" :: rest
       /\ text next = None /\ title next = None /\ pageid next = None
       /\ redirect next = None /\ model next = None /\ format next = None.
Proof.
  intros Htag Hs Ha Hd Hm Hin.
  split; [|split; [|split; [|split]]]; try reflexivity.
  - end_open Htag Hs Ha Hd.
    destruct (existsb _ stack_ignore); [reflexivity|].
    unfold opt_mem. cbn [model popped]. now rewrite Hm, Hin.
  - intros tag' attrs' Hp next. subst next. unfold start.
    rewrite Hp. decide_tests. repeat split; reflexivity.
Qed.

Lemma code_page_dropped_witness :
  end_ wtp_first_arg module_page "page"
  = Ok (popped module_page ["mediawiki"]).
Proof.
  apply (proj1 (code_page_dropped wtp_first_arg module_page "page"
                  ["mediawiki"] [] [] "Scribunto"
                  eq_refl eq_refl eq_refl eq_refl eq_refl eq_refl)).
Defined.

(** C6 as stated fails: after the end tag of a model element whose text
    is "foo" the model field holds "foo" (and one line was printed). *)
Lemma unknown_model_is_stored :
  bind (feed wtp_first_arg (init false)
          [StartTag "mediawiki" []; StartTag "page" [];
           StartTag "revision" []; StartTag "model" [];
           CharacterData "foo"; EndTag "model"])
       (fun self => Ok (model self, stdout self))
  = Ok (Some "foo", [UNRECOGNIZED_MODEL "foo"]).
Proof. reflexivity. Qed.

(** C6, amended: when the end tag of a model or format element, outside
    a contributor element, carries a text that is not one of the known
    values, [end] prints one line, stores the text (stripped) in the
    field and returns, and the run goes on with the next event. *)
Theorem unrecognized_value_kept (first_arg : string -> option string)
    (self : WiktionaryTarget) (tag : string) (rest : list string)
    (a : list (string * string)) (chunks : list string) :
  stack self = local_name tag :: rest ->
  PyStr.mem "contributor" rest = false ->
  attrs self = Some a ->
  data self = Some chunks ->
  let d := PyStr.strip (PyStr.join chunks) in
  (local_name tag = "model" ->
   PyStr.mem d ["wikitext"; "Scribunto"; "css"; "javascript";
                "sanitized-css"] = false ->
   let self' := print (set_model (popped self rest) (Some d))
                      (UNRECOGNIZED_MODEL d) in
   end_ first_arg self tag = Ok self'
   /\ model self' = Some d
   /\ stdout self' = stdout self ++ [UNRECOGNIZED_MODEL d]
   /\ forall evs,
        feed first_arg self (EndTag tag :: evs) = feed first_arg self' evs)
  /\ (local_name tag = "format" ->
      PyStr.mem d ["text/x-wiki"; "text/plain"; "text/css";
                   "text/javascript"] = false ->
      let self' := print (set_format (popped self rest) (Some d))
                         (UNRECOGNIZED_FORMAT d) in
      end_ first_arg self tag = Ok self'
      /\ format self' = Some d
      /\ stdout self' = stdout self ++ [UNRECOGNIZED_FORMAT d]
      /\ forall evs,
           feed first_arg self (EndTag tag :: evs) = feed first_arg self' evs).
Proof.
  intros Hs Hc Ha Hd d.
  split; intros Htag Hin self'.
  - assert (E : end_ first_arg self tag = Ok self').
    { rewrite Htag in Hs. end_open Htag Hs Ha Hd.
      cbn [existsb stack_ignore]. rewrite Hc. cbn [orb].
      fold d. now rewrite Hin. }
    repeat split; try reflexivity; [exact E|].
    intros evs. cbn [feed handle]. now rewrite E.
  - assert (E : end_ first_arg self tag = Ok self').
    { rewrite Htag in Hs. end_open Htag Hs Ha Hd.
      cbn [existsb stack_ignore]. rewrite Hc. cbn [orb].
      fold d. now rewrite Hin. }
    repeat split; try reflexivity; [exact E|].
    intros evs. cbn [feed handle]. now rewrite E.
Qed.

Lemma unrecognized_value_kept_witness :
  end_ wtp_first_arg odd_model "MODEL"
  = Ok (print (set_model (popped odd_model ["revision"; "page"; "mediawiki"])
                         (Some "foo"))
              (UNRECOGNIZED_MODEL "foo")).
Proof.
  apply (proj1 (unrecognized_value_kept wtp_first_arg odd_model "MODEL"
                  ["revision"; "page"; "mediawiki"] [] [" fo"; "o "]
                  eq_refl eq_refl eq_refl eq_refl)
               eq_refl eq_refl).
Defined.

(** C9 as stated fails: a page whose redirect element has an empty title
    has its redirect target set, to the empty string, and with redirects
    disabled its body is classified and an entry is written. *)
Lemma empty_redirect_is_classified :
  bind (parse_wiktionary wtp_first_arg
          (page_events "Thesaurus:happy" (Some [("title", "")]) "wikitext"
                       happy_body)
          false)
       (fun self => Ok (redirect self, capture_redirects self,
                        output_txt self))
  = Ok (Some "", false,
        [Entry "===Synonyms===" ["en"] ["en"] [] [] [] [] []]).
Proof. reflexivity. Qed.

(** C9, amended: closing a page whose redirect target is set and not
    empty, with redirects disabled, calls no callback, writes and prints
    nothing, and [parse_text] is not run on the body. *)
Theorem redirect_page_silent (first_arg : string -> option string)
    (self : WiktionaryTarget) (tag : string) (rest : list string)
    (a : list (string * string)) (chunks : list string) (r : string) :
  local_name tag = "page" ->
  stack self = "page" :: rest ->
  attrs self = Some a ->
  data self = Some chunks ->
  redirect self = Some r ->
  r <> "" ->
  capture_redirects self = false ->
  end_ first_arg self tag = Ok (popped self rest)
  /\ word_cb_calls (popped self rest) = word_cb_calls self
  /\ output_txt (popped self rest) = output_txt self
  /\ stdout (popped self rest) = stdout self.
Proof.
  intros Htag Hs Ha Hd Hr Hne Hcap.
  repeat split.
  end_open Htag Hs Ha Hd.
  destruct (existsb _ stack_ignore); [reflexivity|].
  destruct (opt_mem _ _); [reflexivity|].
  cbn [redirect capture_redirects popped]. rewrite Hr, Hcap.
  unfold truthy. apply String.eqb_neq in Hne. now rewrite Hne.
Qed.

Lemma redirect_page_silent_witness :
  end_ wtp_first_arg redirect_page "page"
  = Ok (popped redirect_page ["mediawiki"]).
Proof.
  refine (proj1 (redirect_page_silent wtp_first_arg redirect_page "page"
                   ["mediawiki"] [] [] "Thesaurus:happy"
                   eq_refl eq_refl eq_refl eq_refl eq_refl _ _)).
  - discriminate.
  - reflexivity.
Defined.

Lemma handle_assigned (first_arg : string -> option string)
    (self self' : WiktionaryTarget) (ev : event) :
  untouched self \/ assigned self ->
  handle first_arg self ev = Ok self' ->
  assigned self'.
Proof.
  intros Inv H. destruct ev as [t a|t|d]; cbn [handle] in H.
  - injection H as <-. unfold start.
    destruct (String.eqb _ "page"); split; eexists; reflexivity.
  - assert (A : assigned self).
    { destruct Inv as [(_ & _ & E)|A]; [|exact A].
      unfold end_ in H. rewrite E in H. discriminate. }
    destruct A as [[a Ha] _].
    unfold end_ in H.
    destruct (stack self); [discriminate|].
    destruct (negb _); [discriminate|].
    rewrite Ha in H.
    destruct (data self); [|discriminate].
    repeat break_if_in H;
      try (injection H as <-; split; eexists; cbn; try eassumption;
           reflexivity);
      try discriminate.
    unfold bind in H. destruct (parse_text _ _ _ _); [|discriminate].
    injection H as <-. split; eexists; cbn; try eassumption; reflexivity.
  - unfold data_ in H. destruct (data self) eqn:D; [|discriminate].
    injection H as <-.
    destruct Inv as [(_ & E & _)|[[a Ha] _]]; [congruence|].
    split; eexists; cbn; try eassumption; reflexivity.
Qed.

Lemma feed_assigned (first_arg : string -> option string)
    (evs : list event) (self self' : WiktionaryTarget) :
  untouched self \/ assigned self ->
  feed first_arg self evs = Ok self' ->
  untouched self' \/ assigned self'.
Proof.
  revert self. induction evs as [|ev evs IH]; intros self Inv H.
  - cbn in H. injection H as <-. exact Inv.
  - cbn [feed] in H. unfold bind in H.
    destruct (handle first_arg self ev) as [s1|] eqn:E; [|discriminate].
    apply (IH s1); [|exact H].
    right. exact (handle_assigned _ _ _ _ Inv E).
Qed.

(** In a run of the driver, a state with an open tag has both attributes
    assigned. *)
Lemma run_assigned (first_arg : string -> option string)
    (redirects : bool) (evs : list event) (self : WiktionaryTarget) :
  feed first_arg (init redirects) evs = Ok self ->
  stack self <> [] ->
  assigned self.
Proof.
  intros H Hne.
  destruct (feed_assigned first_arg evs (init redirects) self) as [U|A];
    [left; repeat split | exact H | | exact A].
  destruct U as (_ & _ & E). contradiction.
Qed.

(** ** The driver *)

(** [word_cb] is called for redirect pages only. *)
Lemma word_cb_only_for_redirects (first_arg : string -> option string)
    (self self' : WiktionaryTarget) (tag : string) :
  truthy (redirect self) = false ->
  end_ first_arg self tag = Ok self' ->
  word_cb_calls self' = word_cb_calls self.
Proof.
  intros Hr H. unfold end_ in H.
  destruct (stack self); [discriminate|].
  destruct (negb _); [discriminate|].
  destruct (attrs self); [|discriminate].
  destruct (data self); [|discriminate].
  cbn [redirect popped capture_redirects] in H. rewrite Hr in H.
  repeat break_if_in H;
    try (injection H as <-; reflexivity); try discriminate.
  unfold bind in H. destruct (parse_text _ _ _ _); [|discriminate].
  injection H as <-. reflexivity.
Qed.

(** C1 as stated fails: the page titled "Glossary:happy" is not a
    thesaurus page, and processing it hands nothing to the callback and
    writes no entry. *)
Lemma glossary_page_yields_nothing :
  outputs (parse_wiktionary wtp_first_arg
             (page_events "Glossary:happy" None "wikitext" happy_body) false)
  = Ok ([], []).
Proof. reflexivity. Qed.

(** C1, amended: for the page titled "Thesaurus:happy" with the body
    lines "===Synonyms===", "{{l|en|glad}}", "===Antonyms===",
    "{{l|en|sad}}", the first argument of either template being "en",
    processing the page writes exactly one entry, whose relations are
    Synonyms ["en"], Antonyms ["en"] and five empty lists. *)
Theorem thesaurus_happy_entry (first_arg : string -> option string)
    (redirects : bool) :
  first_arg "{{l|en|glad}}" = Some "en" ->
  first_arg "{{l|en|sad}}" = Some "en" ->
  exists w,
    outputs (parse_wiktionary first_arg
               (page_events "Thesaurus:happy" None "wikitext" happy_body)
               redirects)
    = Ok ([], [Entry w ["en"] ["en"] [] [] [] [] []]).
Proof.
  intros H1 H2. vm_compute. rewrite H1. vm_compute. rewrite H2.
  eexists. reflexivity.
Qed.

Lemma thesaurus_happy_entry_witness :
  exists w,
    outputs (parse_wiktionary wtp_first_arg
               (page_events "Thesaurus:happy" None "wikitext" happy_body)
               false)
    = Ok ([], [Entry w ["en"] ["en"] [] [] [] [] []]).
Proof.
  apply (thesaurus_happy_entry wtp_first_arg false); reflexivity.
Defined.

(** The entry written for that page has the first line of the body as
    its word. *)
Example thesaurus_happy_word :
  outputs (parse_wiktionary wtp_first_arg
             (page_events "Thesaurus:happy" None "wikitext" happy_body)
             false)
  = Ok ([], [Entry "===Synonyms===" ["en"] ["en"] [] [] [] [] []]).
Proof. reflexivity. Qed.

(** C2: for a page that is no redirect and whose title qualifies, the
    entry is appended to Output.txt and [word_cb] is not called: the run
    over the page titled "Thesaurus:happy" with the body lines
    "===Synonyms===", "{{ws|glad}}" hands nothing to the callback; no call
    of [end] on a page without redirect target calls it. *)
Theorem entry_not_sent_to_word_cb :
  outputs (parse_wiktionary wtp_first_arg
             (page_events "Thesaurus:happy" None "wikitext"
                          (unlines ["===Synonyms==="; "{{ws|glad}}"]))
             true)
  = Ok ([], [Entry "===Synonyms===" ["glad"] [] [] [] [] [] []])
  /\ forall first_arg self self' tag,
       truthy (redirect self) = false ->
       end_ first_arg self tag = Ok self' ->
       word_cb_calls self' = word_cb_calls self.
Proof.
  split; [reflexivity|].
  intros first_arg self self' tag. apply word_cb_only_for_redirects.
Qed.

(** ** The template normalizer *)

Lemma append_empty_r (s : string) : (s ++ "")%string = s.
Proof. induction s as [|c s IH]; simpl; [reflexivity | now rewrite IH]. Qed.

Lemma append_assoc (s t u : string) :
  ((s ++ t) ++ u)%string = (s ++ (t ++ u))%string.
Proof. induction s as [|c s IH]; simpl; [reflexivity | now rewrite IH]. Qed.


Lemma plain_char_tests (c : ascii) :
  plain_char c = true ->
  Template.is_char 123 c = false /\ Template.is_char 125 c = false
  /\ Template.is_char 91 c = false /\ Template.is_char 93 c = false
  /\ Template.is_char 124 c = false /\ Template.is_char 61 c = false.
Proof.
  unfold plain_char. intros H. apply negb_true_iff in H.
  repeat (apply orb_false_elim in H; destruct H as [H ?]).
  repeat split; assumption.
Qed.


Lemma plain_not_named (a : string) (seen : bool) :
  plain a = true -> Normalizer.named_from a seen = false.
Proof.
  revert seen. induction a as [|c a IH]; intros seen H; [reflexivity|].
  cbn [plain] in H. apply andb_true_iff in H as [Hc Ha].
  apply plain_char_tests in Hc as (_ & _ & _ & _ & _ & H6).
  cbn [Normalizer.named_from]. rewrite H6.
  destruct (Normalizer.is_key_char c); [now apply IH | reflexivity].
Qed.

(** Nothing is copied from a text that lies within a replaced template. *)
Lemma normalize_from_skipped (s : string) (k : nat) :
  String.length s <= k -> Normalizer.normalize_from s k false = "".
Proof.
  revert k. induction s as [|c s IH]; intros k H; [reflexivity|].
  cbn [String.length] in H. destruct k as [|k]; [lia|].
  cbn [Normalizer.normalize_from]. apply IH. lia.
Qed.








(** * Further properties of the XML target *)

Lemma feed_app (first_arg : string -> option string)
    (self : WiktionaryTarget) (l1 l2 : list event) :
  feed first_arg self (l1 ++ l2)
  = bind (feed first_arg self l1) (fun s => feed first_arg s l2).
Proof.
  revert self. induction l1 as [|ev l1 IH]; intros self; [reflexivity|].
  cbn [app feed]. destruct (handle first_arg self ev); cbn [bind]; auto.
Qed.

Lemma start_stack (self : WiktionaryTarget) (t : string)
    (a : list (string * string)) :
  stack (start self t a) = local_name t :: stack self.
Proof. unfold start. now destruct (String.eqb _ "page"). Qed.

Lemma start_assigned (self : WiktionaryTarget) (t : string)
    (a : list (string * string)) :
  assigned (start self t a).
Proof.
  unfold start. destruct (String.eqb _ "page"); split; eexists; reflexivity.
Qed.

(** What [end] can raise, told by the state it is called in. *)
Lemma end_raises (first_arg : string -> option string)
    (self : WiktionaryTarget) (tag : string) (e : exn) :
  end_ first_arg self tag = Raise e ->
  (stack self = [] /\ e = IndexError PopEmptyStack)
  \/ (e = AssertionError StackMismatch
      /\ exists ptag rest, stack self = ptag :: rest /\ local_name tag <> ptag)
  \/ (attrs self = None /\ e = AttributeError)
  \/ (data self = None /\ e = TypeError)
  \/ (local_name tag = "page"
      /\ (e = AssertionError WordNotStr \/ e = AssertionError TextNotStr
          \/ e = IndexError FirstLine)).
Proof.
  unfold end_. intros H.
  destruct (stack self) as [|ptag rest]; [injection H as <-; tauto|].
  destruct (String.eqb (local_name tag) ptag) eqn:E; cbn [negb] in H.
  2:{ injection H as <-. right; left. split; [reflexivity|].
      exists ptag, rest. split; [reflexivity|]. now apply String.eqb_neq. }
  destruct (attrs self); [|injection H as <-; tauto].
  destruct (data self); [|injection H as <-; tauto].
  repeat break_if_in H; try discriminate.
  unfold bind in H. destruct (parse_text _ _ _ _) eqn:P; [discriminate|].
  injection H as ->. apply parse_text_raises in P.
  do 4 right. split; [|exact P].
  match goal with
  | Hp : (local_name tag =? "page")%string = true |- _ =>
      now apply String.eqb_eq in Hp
  end.
Qed.

(** On well-formed content, read in a state where a tag is open, the run
    fails only where [parse_text] does, and it leaves the stack as it
    found it. *)
Lemma content_run (first_arg : string -> option string)
    (evs : list event) :
  content evs ->
  forall self, assigned self ->
  match feed first_arg self evs with
  | Ok self' => stack self' = stack self /\ assigned self'
  | Raise e =>
      e = AssertionError WordNotStr \/ e = AssertionError TextNotStr
      \/ e = IndexError FirstLine
  end.
Proof.
  induction 1 as [|d evs _ IH|t a body t' evs Ht _ IHb _ IHe]; intros self A.
  - cbn. now split.
  - cbn [feed handle]. unfold data_.
    destruct A as [[a Ha] [c Hc]]. rewrite Hc. cbn [bind].
    specialize (IH (set_data self (Some (c ++ [d])))).
    cbn [stack set_data] in IH. apply IH.
    split; eexists; cbn; [exact Ha | reflexivity].
  - cbn [feed handle bind]. rewrite feed_app.
    specialize (IHb (start self t a) (start_assigned self t a)).
    destruct (feed first_arg (start self t a) body) as [s1|e];
      cbn [bind]; [|exact IHb].
    destruct IHb as [Hs A1]. rewrite start_stack in Hs.
    cbn [feed handle].
    destruct (end_ first_arg s1 t') as [s2|e] eqn:E; cbn [bind].
    + pose proof (end_pops _ _ _ _ E) as Hp. rewrite Hs in Hp.
      injection Hp as _ Hp.
      assert (A2 : assigned s2).
      { apply (handle_assigned first_arg s1 s2 (EndTag t')); [now right|].
        exact E. }
      specialize (IHe s2 A2).
      destruct (feed first_arg s2 evs); [|exact IHe].
      destruct IHe as [H1 H2]. split; [congruence | exact H2].
    + destruct A1 as [[a1 Ha1] [c1 Hc1]].
      apply end_raises in E.
      destruct E as [[E _]|[[_ (p & r & E & N)]|[[E _]|[[E _]|[_ E]]]]];
        congruence.
Qed.

(** X1: over a well-formed document, whose root element holds well-formed
    content, the run never fails on the stack (no mismatch, no pop of an
    empty stack) nor on an attribute not yet assigned: it ends with an
    empty stack, or with one of the three exceptions of [parse_text]. *)
Theorem well_formed_document_run (first_arg : string -> option string)
    (redirects : bool) (t t' : string) (a : list (string * string))
    (body : list event) :
  local_name t' = local_name t ->
  content body ->
  match parse_wiktionary first_arg (StartTag t a :: body ++ [EndTag t'])
                         redirects with
  | Ok self => stack self = []
  | Raise e =>
      e = AssertionError WordNotStr \/ e = AssertionError TextNotStr
      \/ e = IndexError FirstLine
  end.
Proof.
  intros Ht Hb. unfold parse_wiktionary.
  cbn [feed handle bind].
  pose proof (content_run first_arg _ Hb (start (init redirects) t a)
                (start_assigned _ _ _)) as Hb'.
  rewrite feed_app.
  destruct (feed first_arg (start (init redirects) t a) body) as [s1|e];
    cbn [bind]; [|exact Hb'].
  destruct Hb' as [Hs A1]. rewrite start_stack in Hs. cbn [stack init] in Hs.
  cbn [feed handle].
  destruct (end_ first_arg s1 t') as [s2|e] eqn:E; cbn [bind].
  - apply end_pops in E. rewrite Hs in E. now injection E.
  - destruct A1 as [[a1 Ha1] [c1 Hc1]].
    apply end_raises in E.
    destruct E as [[E _]|[[_ (p & r & E & N)]|[[E _]|[[E _]|[_ E]]]]];
      congruence.
Qed.

Lemma well_formed_document_run_witness :
  match parse_wiktionary wtp_first_arg
          (StartTag "mediawiki" []
           :: [StartTag "page" []; CharacterData "x"; EndTag "{ns}Page"]
              ++ [EndTag "MediaWiki"])
          false with
  | Ok self => stack self = []
  | Raise e =>
      e = AssertionError WordNotStr \/ e = AssertionError TextNotStr
      \/ e = IndexError FirstLine
  end.
Proof.
  apply (well_formed_document_run wtp_first_arg false "mediawiki" "MediaWiki"
           [] [StartTag "page" []; CharacterData "x"; EndTag "{ns}Page"]).
  - reflexivity.
  - apply (@content_elem "page" [] [CharacterData "x"] "{ns}Page" []).
    + reflexivity.
    + apply content_data, content_nil.
    + apply content_nil.
Defined.

Lemma data_raises (self : WiktionaryTarget) (d : string) (e : exn) :
  data_ self d = Raise e -> data self = None /\ e = AttributeError.
Proof.
  unfold data_. destruct (data self); [discriminate|].
  intros H. injection H as <-. now split.
Qed.

Lemma assigned_run_raises (first_arg : string -> option string)
    (evs : list event) (self : WiktionaryTarget) (e : exn) :
  assigned self ->
  feed first_arg self evs = Raise e ->
  e <> AttributeError /\ e <> TypeError.
Proof.
  revert self. induction evs as [|ev evs IH]; intros self A H;
    [discriminate|].
  cbn [feed] in H.
  destruct (handle first_arg self ev) as [s1|e1] eqn:E; cbn [bind] in H.
  - apply (IH s1); [|exact H].
    apply (handle_assigned first_arg self s1 ev); [now right | exact E].
  - injection H as <-. destruct A as [[a Ha] [c Hc]].
    destruct ev as [t at_|t|d]; cbn [handle] in E.
    + discriminate.
    + apply end_raises in E.
      destruct E as [[_ E]|[[E _]|[[E _]|[[E _]|[_ [E|[E|E]]]]]]];
        try congruence; subst e1; split; discriminate.
    + apply data_raises in E as [E _]. congruence.
Qed.

(** X2: a run whose first event is a start tag never fails on an
    attribute that is not assigned yet (no AttributeError on [self.attrs]
    or [self.data], no TypeError on the join), whatever events follow. *)
Theorem run_reads_assigned_attributes (first_arg : string -> option string)
    (redirects : bool) (t : string) (a : list (string * string))
    (evs : list event) :
  parse_wiktionary first_arg (StartTag t a :: evs) redirects
  <> Raise AttributeError
  /\ parse_wiktionary first_arg (StartTag t a :: evs) redirects
     <> Raise TypeError.
Proof.
  unfold parse_wiktionary. cbn [feed handle bind].
  destruct (feed first_arg (start (init redirects) t a) evs) as [s|e] eqn:E.
  - split; discriminate.
  - apply assigned_run_raises in E as [E1 E2]; [|apply start_assigned].
    split; congruence.
Qed.

Lemma join_app (c l : list string) :
  PyStr.join (c ++ l) = (PyStr.join c ++ PyStr.join l)%string.
Proof.
  unfold PyStr.join. induction c as [|x c IH]; [reflexivity|].
  destruct c as [|y c].
  - cbn [app String.concat]. destruct l as [|z l].
    + now rewrite append_empty_r.
    + reflexivity.
  - change (String.concat "" ((x :: y :: c) ++ l))
      with (x ++ String.concat "" ((y :: c) ++ l))%string.
    rewrite IH. change (String.concat "" (x :: y :: c))
      with (x ++ String.concat "" (y :: c))%string.
    now rewrite append_assoc.
Qed.

(** [end] reads the chunks of character data through their join only. *)
Lemma end_reads_join (first_arg : string -> option string)
    (self : WiktionaryTarget) (c1 c2 : list string) (tag : string) :
  PyStr.join c1 = PyStr.join c2 ->
  end_ first_arg (set_data self (Some c1)) tag
  = end_ first_arg (set_data self (Some c2)) tag.
Proof.
  intros H. unfold end_. cbn [stack attrs data set_data].
  destruct (stack self) as [|ptag rest]; [reflexivity|].
  destruct (negb _); [reflexivity|].
  destruct (attrs self); [|reflexivity].
  rewrite H. reflexivity.
Qed.

Lemma feed_data (first_arg : string -> option string)
    (ds : list string) (self : WiktionaryTarget) (c : list string)
    (evs : list event) :
  data self = Some c ->
  feed first_arg self (map CharacterData ds ++ evs)
  = feed first_arg (set_data self (Some (c ++ ds))) evs.
Proof.
  revert self c. induction ds as [|d ds IH]; intros self c H.
  - cbn [map app]. rewrite app_nil_r.
    f_equal. destruct self. cbn in H. subst. reflexivity.
  - cbn [map app feed handle]. unfold data_. rewrite H. cbn [bind].
    rewrite (IH _ (c ++ [d])) by reflexivity.
    rewrite <- app_assoc. reflexivity.
Qed.

(** X3: the way the parser cuts the character data of an element into
    chunks does not matter: the chunks handed over one by one before an
    end tag have the effect of their concatenation handed over at once. *)
Theorem chunking_is_immaterial (first_arg : string -> option string)
    (self : WiktionaryTarget) (ds : list string) (tag : string)
    (evs : list event) :
  data self <> None ->
  feed first_arg self (map CharacterData ds ++ EndTag tag :: evs)
  = feed first_arg self (CharacterData (PyStr.join ds) :: EndTag tag :: evs).
Proof.
  intros H. destruct (data self) as [c|] eqn:Hc; [|contradiction].
  rewrite (feed_data first_arg ds self c _ Hc).
  change (CharacterData (PyStr.join ds) :: EndTag tag :: evs)
    with (map CharacterData [PyStr.join ds] ++ EndTag tag :: evs).
  rewrite (feed_data first_arg [PyStr.join ds] self c _ Hc).
  cbn [feed handle].
  rewrite (end_reads_join first_arg self (c ++ ds) (c ++ [PyStr.join ds]) tag).
  - reflexivity.
  - rewrite !join_app. f_equal.
Qed.

Lemma chunking_is_immaterial_witness :
  feed wtp_first_arg (start (start (init false) "page" []) "title" [])
       (map CharacterData ["Thesau"; "rus:"; ""; "happy"] ++ [EndTag "title"])
  = feed wtp_first_arg (start (start (init false) "page" []) "title" [])
         [CharacterData "Thesaurus:happy"; EndTag "title"].
Proof.
  apply (chunking_is_immaterial wtp_first_arg
           (start (start (init false) "page" []) "title" [])
           ["Thesau"; "rus:"; ""; "happy"] "title" []).
  discriminate.
Defined.

(** X4: character data that is followed by a start tag is lost: [start]
    empties the chunks, so the text of an element before its first child
    reaches no field. *)
Theorem data_before_start_is_dropped (first_arg : string -> option string)
    (self : WiktionaryTarget) (ds : list string) (t : string)
    (a : list (string * string)) (evs : list event) :
  data self <> None ->
  feed first_arg self (map CharacterData ds ++ StartTag t a :: evs)
  = feed first_arg self (StartTag t a :: evs).
Proof.
  intros H. destruct (data self) as [c|] eqn:Hc; [|contradiction].
  rewrite (feed_data first_arg ds self c _ Hc).
  cbn [feed handle bind]. reflexivity.
Qed.

Lemma data_before_start_is_dropped_witness :
  feed wtp_first_arg (start (init false) "page" [])
       (map CharacterData ["lost"; " text"]
        ++ [StartTag "title" []; CharacterData "t"; EndTag "title"])
  = feed wtp_first_arg (start (init false) "page" [])
         [StartTag "title" []; CharacterData "t"; EndTag "title"].
Proof.
  apply (data_before_start_is_dropped wtp_first_arg
           (start (init false) "page" []) ["lost"; " text"] "title" []
           [CharacterData "t"; EndTag "title"]).
  discriminate.
Defined.

(** X5: the end of a tag of [ignore_tags], and the end of any tag while
    a contributor element is open, is passed over: the stack is popped and
    the chunks are emptied, and no page field, no namespace and no output
    changes, whatever the tag and its text are. *)
Theorem ignored_end_changes_nothing (first_arg : string -> option string)
    (self : WiktionaryTarget) (tag : string) (rest : list string)
    (a : list (string * string)) (chunks : list string) :
  stack self = local_name tag :: rest ->
  attrs self = Some a ->
  data self = Some chunks ->
  PyStr.mem (local_name tag) ignore_tags = true
  \/ PyStr.mem "contributor" rest = true ->
  exists self',
    end_ first_arg self tag = Ok self'
    /\ stack self' = rest
    /\ page_fields self' = page_fields self
    /\ namespaces self' = namespaces self
    /\ word_cb_calls self' = word_cb_calls self
    /\ output_txt self' = output_txt self
    /\ stdout self' = stdout self.
Proof.
  intros Hs Ha Hd H. exists (popped self rest).
  split; [|repeat split; reflexivity].
  unfold end_. rewrite Hs, String.eqb_refl, Ha, Hd. cbn [negb].
  destruct H as [H|H].
  - now rewrite H.
  - destruct (PyStr.mem (local_name tag) ignore_tags); [reflexivity|].
    cbn [existsb stack_ignore]. now rewrite H.
Qed.

Lemma ignored_end_changes_nothing_witness :
  exists self',
    end_ wtp_first_arg contributor_id "ID" = Ok self'
    /\ stack self' = ["contributor"; "revision"; "page"; "mediawiki"]
    /\ page_fields self' = page_fields contributor_id
    /\ namespaces self' = namespaces contributor_id
    /\ word_cb_calls self' = word_cb_calls contributor_id
    /\ output_txt self' = output_txt contributor_id
    /\ stdout self' = stdout contributor_id.
Proof.
  apply (ignored_end_changes_nothing wtp_first_arg contributor_id "ID"
           ["contributor"; "revision"; "page"; "mediawiki"] [] ["4711"]
           eq_refl eq_refl eq_refl).
  right. reflexivity.
Defined.

(** X6: [end] changes a page field only on the end tag of its own
    element: the title on "title", the text on "text", the redirect target
    on "redirect", the model on "model", the format on "format", and the
    page id on an "id" that is neither inside a revision nor inside a
    contributor element. *)
Theorem end_changes_own_field (first_arg : string -> option string)
    (self self' : WiktionaryTarget) (tag : string) :
  end_ first_arg self tag = Ok self' ->
  (title self' <> title self -> local_name tag = "title")
  /\ (text self' <> text self -> local_name tag = "text")
  /\ (redirect self' <> redirect self -> local_name tag = "redirect")
  /\ (model self' <> model self -> local_name tag = "model")
  /\ (format self' <> format self -> local_name tag = "format")
  /\ (pageid self' <> pageid self ->
      local_name tag = "id"
      /\ PyStr.mem "revision" (stack self') = false
      /\ PyStr.mem "contributor" (stack self') = false).
Proof.
  unfold end_. intros H.
  destruct (stack self) as [|ptag rest]; [discriminate|].
  destruct (negb _); [discriminate|].
  destruct (attrs self); [|discriminate].
  destruct (data self); [|discriminate].
  repeat break_if_in H; try discriminate;
    try (unfold bind in H; destruct (parse_text _ _ _ _); [|discriminate]);
    injection H as <-; cbn;
    (split; [|split; [|split; [|split; [|split]]]]);
    intros N; try (now elim N);
    repeat match goal with
           | E : (_ =? _)%string = true |- _ => apply String.eqb_eq in E
           end;
    try assumption.
  repeat split; try assumption.
  match goal with
  | E : existsb _ stack_ignore = false |- _ =>
      cbn in E; now apply orb_false_elim in E as [E _]
  end.
Qed.

Lemma end_changes_own_field_witness :
  local_name "ID" = "id"
  /\ PyStr.mem "revision" ["page"; "mediawiki"] = false
  /\ PyStr.mem "contributor" ["page"; "mediawiki"] = false.
Proof.
  pose proof (end_changes_own_field wtp_first_arg page_id
                (set_pageid (popped page_id ["page"; "mediawiki"]) (Some "7"))
                "ID" eq_refl) as H.
  destruct H as (_ & _ & _ & _ & _ & H). apply H. discriminate.
Defined.

Lemma parse_text_appends (first_arg : string -> option string)
    (w t : option string) (out out' : list entry) :
  parse_text first_arg w t out = Ok out' ->
  out' = out \/ exists e, out' = out ++ [e].
Proof.
  unfold parse_text. intros H.
  destruct w; [|discriminate]. destruct t; [|discriminate].
  destruct (negb _); [injection H as <-; now left|].
  destruct (wordss_of _); [discriminate|].
  destruct (scan_lines _ _ _). injection H as <-. right. now eexists.
Qed.

Ltac outputs_done :=
  cbn; rewrite ?app_nil_r;
  (split; [reflexivity | split; [reflexivity | split; [reflexivity|]]]);
  try destruct (String.eqb _ "page"); cbn; lia.

(** What one event adds to the outputs. *)
Lemma handle_outputs (first_arg : string -> option string)
    (self self' : WiktionaryTarget) (ev : event) :
  handle first_arg self ev = Ok self' ->
  exists c o p,
    word_cb_calls self' = word_cb_calls self ++ c
    /\ output_txt self' = output_txt self ++ o
    /\ stdout self' = stdout self ++ p
    /\ length c + length o <= (if is_page_end ev then 1 else 0).
Proof.
  intros H. destruct ev as [t a|t|d]; cbn [handle is_page_end] in *.
  - injection H as <-. exists [], [], []. unfold start.
    destruct (String.eqb _ "page"); outputs_done.
  - unfold end_ in H.
    destruct (stack self) as [|ptag rest]; [discriminate|].
    destruct (negb _); [discriminate|].
    destruct (attrs self); [|discriminate].
    destruct (data self); [|discriminate].
    repeat break_if_in H; try discriminate;
      try (injection H as <-;
           first [ solve [exists [], [], []; outputs_done]
                 | solve [eexists [_], [], []; outputs_done]
                 | solve [eexists [], [], [_]; outputs_done] ]).
    unfold bind in H.
    destruct (parse_text _ _ _ _) as [out|] eqn:P; [|discriminate].
    injection H as <-. cbn in P.
    apply parse_text_appends in P as [->|[e ->]].
    + exists [], [], []. outputs_done.
    + exists [], [e], []. outputs_done.
  - unfold data_ in H. destruct (data self); [|discriminate].
    injection H as <-. exists [], [], []. outputs_done.
Qed.

(** X7: a run only appends to its outputs, and it appends at most one
    record, a callback argument or an entry, for each end tag of a page:
    what was handed to [word_cb], written to Output.txt and printed
    before stays, and the callback arguments and entries added are no more
    than the page ends among the events. *)
Theorem outputs_only_grow (first_arg : string -> option string)
    (evs : list event) (self self' : WiktionaryTarget) :
  feed first_arg self evs = Ok self' ->
  exists c o p,
    word_cb_calls self' = word_cb_calls self ++ c
    /\ output_txt self' = output_txt self ++ o
    /\ stdout self' = stdout self ++ p
    /\ length c + length o <= page_ends evs.
Proof.
  revert self. induction evs as [|ev evs IH]; intros self H.
  - cbn in H. injection H as <-. exists [], [], [].
    rewrite !app_nil_r. repeat split. cbn. lia.
  - cbn [feed] in H.
    destruct (handle first_arg self ev) as [s1|] eqn:E; [|discriminate].
    cbn [bind] in H.
    apply handle_outputs in E as (c1 & o1 & p1 & E1 & E2 & E3 & E4).
    apply IH in H as (c2 & o2 & p2 & H1 & H2 & H3 & H4).
    exists (c1 ++ c2), (o1 ++ o2), (p1 ++ p2).
    rewrite H1, H2, H3, E1, E2, E3, !app_assoc, !length_app.
    repeat split. unfold page_ends in *. cbn [filter].
    destruct (is_page_end ev); cbn [length]; lia.
Qed.

Lemma outputs_only_grow_witness :
  exists c o p,
    word_cb_calls (popped module_page ["mediawiki"])
    = word_cb_calls module_page ++ c
    /\ output_txt (popped module_page ["mediawiki"])
       = output_txt module_page ++ o
    /\ stdout (popped module_page ["mediawiki"]) = stdout module_page ++ p
    /\ length c + length o <= page_ends [EndTag "page"].
Proof.
  apply (outputs_only_grow wtp_first_arg [EndTag "page"] module_page
           (popped module_page ["mediawiki"])).
  reflexivity.
Defined.

(** X8: with redirects captured, closing a page that has a redirect
    target which is not empty, outside a contributor element and with a
    model that is no code model, calls [word_cb] once, with the target and
    the title, and writes no entry: the body is not classified. *)
Theorem redirect_page_captured (first_arg : string -> option string)
    (self : WiktionaryTarget) (tag : string) (rest : list string)
    (a : list (string * string)) (chunks : list string) (r : string) :
  local_name tag = "page" ->
  stack self = "page" :: rest ->
  attrs self = Some a ->
  data self = Some chunks ->
  PyStr.mem "contributor" rest = false ->
  opt_mem (model self) ["css"; "sanitized-css"; "javascript"; "Scribunto"]
  = false ->
  redirect self = Some r ->
  r <> "" ->
  capture_redirects self = true ->
  exists self',
    end_ first_arg self tag = Ok self'
    /\ word_cb_calls self'
       = word_cb_calls self ++ [RedirectData r (title self)]
    /\ output_txt self' = output_txt self
    /\ stdout self' = stdout self.
Proof.
  intros Htag Hs Ha Hd Hc Hm Hr Hne Hcap.
  exists (word_cb (popped self rest) (RedirectData r (title self))).
  split; [|repeat split].
  end_open Htag Hs Ha Hd.
  cbn [existsb stack_ignore]. rewrite Hc. cbn [orb].
  cbn [model redirect capture_redirects title popped].
  rewrite Hm, Hr, Hcap. unfold truthy.
  apply String.eqb_neq in Hne. now rewrite Hne.
Qed.

Lemma redirect_page_captured_witness :
  exists self',
    end_ wtp_first_arg redirect_page_on "page" = Ok self'
    /\ word_cb_calls self'
       = word_cb_calls redirect_page_on
         ++ [RedirectData "Thesaurus:happy" (title redirect_page_on)]
    /\ output_txt self' = output_txt redirect_page_on
    /\ stdout self' = stdout redirect_page_on.
Proof.
  refine (redirect_page_captured wtp_first_arg redirect_page_on "page"
            ["mediawiki"] [] [] "Thesaurus:happy"
            eq_refl eq_refl eq_refl eq_refl eq_refl eq_refl eq_refl _
            eq_refl).
  discriminate.
Defined.

(** X9: on the end tag of a redirect element, outside a contributor
    element, the redirect target becomes the value of the title attribute
    of its start tag, the attribute name taken without namespace, and
    nothing when there is no such attribute; the text of the element is
    not used. *)
Theorem redirect_element_sets_target (first_arg : string -> option string)
    (self : WiktionaryTarget) (t t' : string) (a : list (string * string))
    (ds : list string) (evs : list event) :
  local_name t = "redirect" ->
  local_name t' = "redirect" ->
  PyStr.mem "contributor" (stack self) = false ->
  exists self',
    feed first_arg self (StartTag t a :: map CharacterData ds
                         ++ EndTag t' :: evs)
    = feed first_arg self' evs
    /\ redirect self' = dict_get String.eqb (attrs_of a) "title"
    /\ stack self' = stack self
    /\ title self' = title self /\ text self' = text self
    /\ word_cb_calls self' = word_cb_calls self
    /\ output_txt self' = output_txt self
    /\ stdout self' = stdout self.
Proof.
  intros Ht Ht' Hc.
  exists (set_redirect (popped (opened self "redirect" (attrs_of a))
                               (stack self))
                       (dict_get String.eqb (attrs_of a) "title")).
  split; [|repeat split].
  cbn [feed handle bind].
  assert (E : start self t a = opened self "redirect" (attrs_of a)).
  { unfold start. rewrite Ht. reflexivity. }
  rewrite E.
  rewrite (feed_data first_arg ds (opened self "redirect" (attrs_of a)) []
             (EndTag t' :: evs) eq_refl).
  cbn [feed handle].
  replace (end_ first_arg
             (set_data (opened self "redirect" (attrs_of a)) (Some ([] ++ ds)))
             t')
    with (Ok (set_redirect (popped (opened self "redirect" (attrs_of a))
                                   (stack self))
                           (dict_get String.eqb (attrs_of a) "title")));
    [reflexivity|].
  symmetry. unfold end_. cbn [stack attrs data set_data opened].
  rewrite Ht'. decide_tests.
  cbn [existsb stack_ignore]. rewrite Hc. reflexivity.
Qed.

Lemma redirect_element_sets_target_witness :
  exists self',
    feed wtp_first_arg (start (init false) "page" [])
         (StartTag "redirect" [("{ns}title", "Thesaurus:happy")]
          :: map CharacterData ["x"] ++ [EndTag "Redirect"])
    = feed wtp_first_arg self' []
    /\ redirect self'
       = dict_get String.eqb (attrs_of [("{ns}title", "Thesaurus:happy")])
                  "title"
    /\ stack self' = stack (start (init false) "page" [])
    /\ title self' = title (start (init false) "page" [])
    /\ text self' = text (start (init false) "page" [])
    /\ word_cb_calls self' = word_cb_calls (start (init false) "page" [])
    /\ output_txt self' = output_txt (start (init false) "page" [])
    /\ stdout self' = stdout (start (init false) "page" []).
Proof.
  apply (redirect_element_sets_target wtp_first_arg
           (start (init false) "page" []) "redirect" "Redirect"
           [("{ns}title", "Thesaurus:happy")] ["x"] []); reflexivity.
Defined.

(** Assigning to a key and looking a key up. *)
Lemma dict_get_set (K V : Type) (eqb : K -> K -> bool)
    (d : list (K * V)) (k k' : K) (v : V) :
  (forall x y, eqb x y = true <-> x = y) ->
  dict_get eqb (dict_set eqb d k v) k'
  = if eqb k k' then Some v else dict_get eqb d k'.
Proof.
  intros Heq. induction d as [|[k0 v0] d IH]; cbn [dict_set dict_get].
  - reflexivity.
  - destruct (eqb k0 k) eqn:E0; cbn [dict_get].
    + apply Heq in E0. subst k0.
      destruct (eqb k k'); reflexivity.
    + destruct (eqb k0 k') eqn:E1.
      * apply Heq in E1. subst k0.
        destruct (eqb k k') eqn:E2; [|reflexivity].
        apply Heq in E2. subst k'.
        rewrite (proj2 (Heq k k) eq_refl) in E0. discriminate.
      * exact IH.
Qed.

Lemma opt_eqb_eq (x y : option string) : opt_eqb x y = true <-> x = y.
Proof.
  destruct x as [x|], y as [y|]; cbn; split; intros H;
    try discriminate; try reflexivity.
  - apply String.eqb_eq in H. now subst.
  - injection H as ->. apply String.eqb_refl.
Qed.

(** X10: the end tag of a namespace element, outside a contributor
    element, records the stripped text of the element under the value of
    the key attribute of its start tag (under None without such an
    attribute): looking that key up gives the text, replacing what an
    earlier element recorded under it, and every other key keeps its
    value. *)
Theorem namespace_is_recorded (first_arg : string -> option string)
    (self : WiktionaryTarget) (tag : string) (rest : list string)
    (a : list (string * string)) (chunks : list string) :
  local_name tag = "namespace" ->
  stack self = "namespace" :: rest ->
  attrs self = Some a ->
  data self = Some chunks ->
  PyStr.mem "contributor" rest = false ->
  exists self',
    end_ first_arg self tag = Ok self'
    /\ forall k,
         dict_get opt_eqb (namespaces self') k
         = if opt_eqb (dict_get String.eqb a "key") k
           then Some (PyStr.strip (PyStr.join chunks))
           else dict_get opt_eqb (namespaces self) k.
Proof.
  intros Htag Hs Ha Hd Hc.
  exists (set_namespace (popped self rest) (dict_get String.eqb a "key")
                        (PyStr.strip (PyStr.join chunks))).
  split.
  - end_open Htag Hs Ha Hd.
    cbn [existsb stack_ignore]. rewrite Hc. reflexivity.
  - intros k. cbn [namespaces set_namespace popped].
    apply dict_get_set. exact opt_eqb_eq.
Qed.

Lemma namespace_is_recorded_witness :
  exists self',
    end_ wtp_first_arg namespace_decl "namespace" = Ok self'
    /\ forall k,
         dict_get opt_eqb (namespaces self') k
         = if opt_eqb (dict_get String.eqb [("key", "110")] "key") k
           then Some (PyStr.strip (PyStr.join [" Thesaurus "]))
           else dict_get opt_eqb (namespaces namespace_decl) k.
Proof.
  apply (namespace_is_recorded wtp_first_arg namespace_decl "namespace"
           ["namespaces"; "siteinfo"; "mediawiki"] [("key", "110")]
           [" Thesaurus "]); reflexivity.
Defined.

Lemma lower_char_idempotent (c : ascii) :
  PyStr.lower_char (PyStr.lower_char c) = PyStr.lower_char c.
Proof. destruct c as [[] [] [] [] [] [] [] []]; reflexivity. Qed.

Lemma lower_idempotent (s : string) : PyStr.lower (PyStr.lower s) = PyStr.lower s.
Proof.
  induction s as [|c s IH]; [reflexivity|].
  cbn [PyStr.lower]. now rewrite lower_char_idempotent, IH.
Qed.

Lemma after_first_rbrace_clark (ns t : string) :
  no_rbrace ns = true ->
  PyStr.after_first_rbrace (ns ++ String "}" t) = Some t.
Proof.
  induction ns as [|c ns IH]; intros H.
  - reflexivity.
  - cbn [no_rbrace] in H. apply andb_true_iff in H as [Hc Hns].
    apply negb_true_iff in Hc.
    cbn [append PyStr.after_first_rbrace]. rewrite Hc. now apply IH.
Qed.

Lemma after_first_rbrace_none (u : string) :
  no_rbrace u = true -> PyStr.after_first_rbrace u = None.
Proof.
  induction u as [|c u IH]; intros H; [reflexivity|].
  cbn [no_rbrace] in H. apply andb_true_iff in H as [Hc Hu].
  apply negb_true_iff in Hc. cbn [PyStr.after_first_rbrace].
  rewrite Hc. now apply IH.
Qed.

(** X11: the name under which [start] and [end] know a tag is the tag in
    lower case, a namespace in braces before it removed; the name is a
    fixed point of the lowering, so that it compares with the names the
    code writes in lower case, and a tag with a namespace is started like
    the same tag without it. *)
Theorem tag_name_is_local_and_lower (ns t : string) :
  no_rbrace ns = true ->
  local_name ("{" ++ ns ++ "}" ++ t) = PyStr.lower t
  /\ PyStr.lower (local_name ("{" ++ ns ++ "}" ++ t))
     = local_name ("{" ++ ns ++ "}" ++ t)
  /\ (no_rbrace t = true ->
      local_name t = PyStr.lower t
      /\ forall self a, start self ("{" ++ ns ++ "}" ++ t) a = start self t a).
Proof.
  intros Hns.
  assert (E : local_name ("{" ++ ns ++ "}" ++ t) = PyStr.lower t).
  { unfold local_name.
    change ("{" ++ ns ++ "}" ++ t)%string
      with (String "{" (ns ++ String "}" t)).
    cbn [PyStr.after_first_rbrace].
    change (PyStr.code "{" =? 125) with false. cbv iota.
    now rewrite after_first_rbrace_clark. }
  split; [exact E|]. split.
  - rewrite E. apply lower_idempotent.
  - intros Ht.
    assert (E' : local_name t = PyStr.lower t).
    { unfold local_name. now rewrite after_first_rbrace_none. }
    split; [exact E'|].
    intros self a. unfold start. now rewrite E, E'.
Qed.

Lemma tag_name_is_local_and_lower_witness :
  local_name "{http://www.mediawiki.org/xml/export-0.10/}Page" = "page".
Proof.
  exact (proj1 (tag_name_is_local_and_lower
                  "http://www.mediawiki.org/xml/export-0.10/" "Page"
                  eq_refl)).
Defined.

(** X12: the end of a tag that is neither ignored nor known, outside a
    contributor element, raises nothing: it prints one line with the tag,
    the length of its stripped text and its attributes, changes no page
    field and no output, and the run goes on. *)
Theorem unknown_tag_is_reported (first_arg : string -> option string)
    (self : WiktionaryTarget) (tag : string) (rest : list string)
    (a : list (string * string)) (chunks : list string) (evs : list event) :
  stack self = local_name tag :: rest ->
  attrs self = Some a ->
  data self = Some chunks ->
  PyStr.mem (local_name tag) ignore_tags = false ->
  PyStr.mem (local_name tag) handled_tags = false ->
  PyStr.mem "contributor" rest = false ->
  exists self',
    end_ first_arg self tag = Ok self'
    /\ feed first_arg self (EndTag tag :: evs) = feed first_arg self' evs
    /\ stdout self'
       = stdout self
         ++ [UNSUPPORTED (local_name tag)
               (String.length (PyStr.strip (PyStr.join chunks))) a]
    /\ page_fields self' = page_fields self
    /\ word_cb_calls self' = word_cb_calls self
    /\ output_txt self' = output_txt self
    /\ stack self' = rest.
Proof.
  intros Hs Ha Hd Hi Hh Hc.
  exists (print (popped self rest)
                (UNSUPPORTED (local_name tag)
                   (String.length (PyStr.strip (PyStr.join chunks))) a)).
  assert (E : end_ first_arg self tag
              = Ok (print (popped self rest)
                      (UNSUPPORTED (local_name tag)
                         (String.length (PyStr.strip (PyStr.join chunks)))
                         a))).
  { unfold end_. rewrite Hs, String.eqb_refl, Ha, Hd, Hi. cbn [negb].
    cbn [existsb stack_ignore]. rewrite Hc. cbn [orb].
    unfold handled_tags in Hh. cbn [PyStr.mem existsb] in Hh.
    repeat (apply orb_false_elim in Hh; destruct Hh as [T Hh];
            rewrite T; clear T).
    reflexivity. }
  split; [exact E|]. split; [|repeat split].
  cbn [feed handle]. now rewrite E.
Qed.

Lemma unknown_tag_is_reported_witness :
  exists self',
    end_ wtp_first_arg
         (start (start (init false) "page" []) "Discussion" [("n", "1")])
         "discussion"
    = Ok self'
    /\ feed wtp_first_arg
         (start (start (init false) "page" []) "Discussion" [("n", "1")])
         [EndTag "discussion"]
       = feed wtp_first_arg self' []
    /\ stdout self'
       = stdout (start (start (init false) "page" []) "Discussion"
                       [("n", "1")])
         ++ [UNSUPPORTED (local_name "discussion")
               (String.length (PyStr.strip (PyStr.join []))) [("n", "1")]]
    /\ page_fields self'
       = page_fields (start (start (init false) "page" []) "Discussion"
                            [("n", "1")])
    /\ word_cb_calls self'
       = word_cb_calls (start (start (init false) "page" []) "Discussion"
                              [("n", "1")])
    /\ output_txt self'
       = output_txt (start (start (init false) "page" []) "Discussion"
                           [("n", "1")])
    /\ stack self' = ["page"].
Proof.
  apply (unknown_tag_is_reported wtp_first_arg
           (start (start (init false) "page" []) "Discussion" [("n", "1")])
           "discussion" ["page"] [("n", "1")] [] []); reflexivity.
Defined.

(** * Further properties of the classifier *)

(** What the body of the loop does to the lists on one line: nothing, or
    one value, the first argument found on the line, at the end of one
    list. *)
Lemma scan_line_step (first_arg : string -> option string)
    (key : option string) (b : buckets) (aword : string) :
  snd (scan_line first_arg (key, b) aword) = b
  \/ exists v add,
       first_arg aword = Some v
       /\ is_list_marker aword = false
       /\ In add [add_syno; add_anto; add_hypo; add_hyper; add_inst;
                  add_mero; add_holy]
       /\ snd (scan_line first_arg (key, b) aword) = add v b.
Proof.
  unfold scan_line. destruct (is_list_marker aword) eqn:M; [now left|].
  cbn [snd]. unfold block.
  destruct (next_key key aword) as [k|]; cbn [key_is]; [|now left].
  destruct (first_arg aword) as [v|] eqn:F.
  2:{ left. repeat match goal with
                   | |- context [if ?c then _ else _] => destruct c
                   end; reflexivity. }
  destruct (String.eqb_spec k "a") as [->|]; cbn [andb].
  { destruct (negb _); [|now left].
    right. exists v, add_syno. cbn. tauto. }
  destruct (String.eqb_spec k "b") as [->|]; cbn [andb].
  { destruct (negb _); [|now left].
    right. exists v, add_anto. cbn. tauto. }
  destruct (String.eqb_spec k "c") as [->|]; cbn [andb].
  { destruct (negb _); [|now left].
    right. exists v, add_hypo. cbn. tauto. }
  destruct (String.eqb_spec k "d") as [->|]; cbn [andb].
  { destruct (negb _); [|now left].
    right. exists v, add_hyper. cbn. tauto. }
  destruct (String.eqb_spec k "e") as [->|]; cbn [andb].
  { destruct (negb _); [|now left].
    right. exists v, add_inst. cbn. tauto. }
  destruct (String.eqb_spec k "f") as [->|]; cbn [andb].
  { destruct (negb _); [|now left].
    right. exists v, add_mero. cbn. tauto. }
  destruct (String.eqb_spec k "g") as [->|]; cbn [andb].
  { destruct (negb _); [|now left].
    right. exists v, add_holy. cbn. tauto. }
  now left.
Qed.

(** X13: the list markers "{{ws beginlist}}" and "{{ws endlist}}" are
    transparent to the loop: scanning a list of lines gives what scanning
    it without these lines gives, whatever section is open. *)
Theorem list_markers_are_transparent (first_arg : string -> option string)
    (ls : list string) (st : option string * buckets) :
  scan_lines first_arg st ls
  = scan_lines first_arg st
      (filter (fun l => negb (is_list_marker l)) ls).
Proof.
  revert st. induction ls as [|l ls IH]; intros st; [reflexivity|].
  unfold scan_lines in *. cbn [fold_left filter].
  destruct (is_list_marker l) eqn:M; cbn [negb fold_left].
  - assert (E : scan_line first_arg st l = st).
    { unfold scan_line. destruct st. now rewrite M. }
    rewrite E. apply IH.
  - apply IH.
Qed.

Lemma grown_refl (b : buckets) : grown b b.
Proof. repeat split; exists []; now rewrite app_nil_r. Qed.

Lemma grown_trans (b1 b2 b3 : buckets) :
  grown b1 b2 -> grown b2 b3 -> grown b1 b3.
Proof.
  intros (A1 & A2 & A3 & A4 & A5 & A6 & A7) (B1 & B2 & B3 & B4 & B5 & B6 & B7).
  repeat split;
    match goal with
    | H1 : exists l, ?f b2 = ?f b1 ++ l, H2 : exists l, ?f b3 = ?f b2 ++ l
      |- exists l, ?f b3 = ?f b1 ++ l =>
        destruct H1 as [l1 H1]; destruct H2 as [l2 H2];
        exists (l1 ++ l2); now rewrite H2, H1, app_assoc
    end.
Qed.

Lemma add_grown (add : string -> buckets -> buckets) (v : string)
    (b : buckets) :
  In add [add_syno; add_anto; add_hypo; add_hyper; add_inst; add_mero;
          add_holy] ->
  grown b (add v b)
  /\ length (values (add v b)) = S (length (values b))
  /\ forall x, In x (values (add v b)) -> x = v \/ In x (values b).
Proof.
  intros H. cbn [In] in H.
  repeat (destruct H as [<-|H]); try contradiction;
    (split;
     [ repeat split; cbn;
       first [ now exists [v] | exists []; now rewrite app_nil_r ]
     | split;
       [ unfold values; cbn; rewrite !length_app; cbn; lia
       | intros x Hx; unfold values in *; cbn in Hx;
         rewrite !in_app_iff in Hx; rewrite !in_app_iff;
         cbn [In] in Hx; intuition (subst; auto) ] ]).
Qed.

(** X14: the loop only adds to the seven lists, at their ends, and at
    most one value for each line: a header that comes again continues its
    list, and no line removes or overwrites a value. *)
Theorem lists_only_grow (first_arg : string -> option string)
    (ls : list string) (key : option string) (b : buckets) :
  grown b (snd (scan_lines first_arg (key, b) ls))
  /\ length (values (snd (scan_lines first_arg (key, b) ls)))
     <= length (values b) + length ls.
Proof.
  revert key b. induction ls as [|l ls IH]; intros key b.
  - cbn. split; [apply grown_refl | lia].
  - unfold scan_lines in *. cbn [fold_left].
    destruct (scan_line first_arg (key, b) l) as [k1 b1] eqn:E.
    pose proof (scan_line_step first_arg key b l) as S.
    rewrite E in S. cbn [snd] in S.
    destruct (IH k1 b1) as [G L].
    destruct S as [->|(v & add & _ & _ & Hadd & ->)].
    + split; [exact G | cbn [length]; lia].
    + destruct (add_grown add v b Hadd) as (G1 & L1 & _).
      split; [exact (grown_trans _ _ _ G1 G)|].
      cbn [length]. lia.
Qed.

(** X15: every value of an entry comes from a line of the body: each
    element of its seven lists is the first argument that the parser
    finds on some line of the stripped body. *)
Theorem values_come_from_lines (first_arg : string -> option string)
    (page_title body : string) (out : list entry) (e : entry) :
  parse_text first_arg (Some page_title) (Some body) out = Ok (out ++ [e]) ->
  forall v,
    In v (Synonyms e ++ Antonyms e ++ Hyponyms e ++ Hypernyms e
          ++ Instances e ++ Meronyms e ++ Holonyms e) ->
    exists l, In l (wordss_of body) /\ first_arg l = Some v.
Proof.
  assert (G : forall ls key b v,
             In v (values (snd (scan_lines first_arg (key, b) ls))) ->
             In v (values b) \/ exists l, In l ls /\ first_arg l = Some v).
  { induction ls as [|l ls IH]; intros key b v H; [now left|].
    unfold scan_lines in *. cbn [fold_left] in H.
    destruct (scan_line first_arg (key, b) l) as [k1 b1] eqn:E.
    pose proof (scan_line_step first_arg key b l) as S.
    rewrite E in S. cbn [snd] in S.
    apply IH in H as [H|(l' & H1 & H2)].
    - destruct S as [->|(w & add & Hw & _ & Hadd & ->)]; [now left|].
      destruct (add_grown add w b Hadd) as (_ & _ & P).
      apply P in H as [->|H]; [|now left].
      right. exists l. split; [now left | exact Hw].
    - right. exists l'. split; [now right | exact H2]. }
  unfold parse_text. intros H v Hv.
  destruct (negb _).
  - injection H as H. apply (f_equal (@length entry)) in H.
    rewrite length_app in H. cbn in H. lia.
  - destruct (wordss_of body) as [|w0 ws] eqn:W; [discriminate|].
    destruct (scan_lines first_arg (None, no_buckets) (w0 :: ws))
      as [k b] eqn:E.
    injection H as H. apply app_inv_head in H. injection H as <-.
    cbn [Synonyms Antonyms Hyponyms Hypernyms Instances Meronyms Holonyms
         entry_of] in Hv.
    specialize (G (w0 :: ws) None no_buckets v).
    rewrite E in G. cbn [snd] in G.
    destruct (G Hv) as [F|F]; [contradiction F | exact F].
Qed.

Lemma values_come_from_lines_witness :
  exists l, In l (wordss_of happy_body) /\ wtp_first_arg l = Some "en".
Proof.
  apply (values_come_from_lines wtp_first_arg "Thesaurus:happy" happy_body []
           (Entry "===Synonyms===" ["en"] ["en"] [] [] [] [] [])
           eq_refl "en").
  left. reflexivity.
Defined.

Lemma block_skip (first_arg : string -> option string)
    (key : option string) (aword k header : string)
    (add : string -> buckets -> buckets) (rest : buckets -> buckets)
    (b : buckets) :
  key_is key k && negb (header =? label aword)%string = false ->
  block first_arg key aword k header add rest b = rest b.
Proof. intros H. unfold block. now rewrite H. Qed.

Lemma block_take (first_arg : string -> option string)
    (key : option string) (aword k header v : string)
    (add : string -> buckets -> buckets) (rest : buckets -> buckets)
    (b : buckets) :
  key_is key k = true ->
  (header =? label aword)%string = false ->
  first_arg aword = Some v ->
  block first_arg key aword k header add rest b = rest (add v b).
Proof. intros H1 H2 H3. unfold block. now rewrite H1, H2, H3. Qed.

(** X16: a value goes to the list of the section it stands in: after a
    line that matches the header of a relation, a line that is no list
    marker, no header and no sentinel and on which the parser finds a
    first argument adds it at the end of the list of that relation, and
    to no other list. *)
Theorem value_goes_to_open_section (first_arg : string -> option string)
    (key : option string) (b : buckets) (h l v hd k : string)
    (add : string -> buckets -> buckets) :
  In (hd, k, add) sections ->
  label h = hd ->
  is_list_marker l = false ->
  is_header l = false ->
  is_sentinel l = false ->
  first_arg l = Some v ->
  scan_lines first_arg (key, b) [h; l] = (Some k, add v b).
Proof.
  intros Hin Hh Ml Hl Sl Fl.
  assert (Hhead : is_header h = true).
  { unfold is_header. apply existsb_exists. exists hd. split.
    - unfold sections in Hin. cbn [In] in Hin. unfold headers. cbn [In].
      repeat (destruct Hin as [Hin|Hin]; [injection Hin as <- _ _; tauto|]).
      contradiction.
    - rewrite Hh. apply String.eqb_refl. }
  assert (Mh : is_list_marker h = false).
  { destruct (is_list_marker h) eqn:M; [|reflexivity].
    apply marker_not_header in M. congruence. }
  assert (Hk : next_key key h = Some k).
  { unfold next_key. rewrite Hh.
    unfold sections in Hin. cbn [In] in Hin.
    repeat (destruct Hin as [Hin|Hin]; [injection Hin as <- <- _; reflexivity|]).
    contradiction. }
  assert (S1 : scan_line first_arg (key, b) h = (Some k, b)).
  { destruct (scan_line_header first_arg key b h Hhead) as (k' & _ & E).
    pose proof E as E'. unfold scan_line in E'. rewrite Mh, Hk in E'.
    injection E' as E1 _. rewrite E1. exact E. }
  unfold scan_lines. cbn [fold_left]. rewrite S1.
  unfold scan_line. rewrite Ml, (next_key_not_header _ _ Hl), Sl.
  f_equal.
  unfold is_header, headers in Hl. cbn [existsb] in Hl.
  apply orb_false_elim in Hl as [T1 Hl]. apply orb_false_elim in Hl as [T2 Hl].
  apply orb_false_elim in Hl as [T3 Hl]. apply orb_false_elim in Hl as [T4 Hl].
  apply orb_false_elim in Hl as [T5 Hl]. apply orb_false_elim in Hl as [T6 Hl].
  apply orb_false_elim in Hl as [T7 _].
  unfold sections in Hin. cbn [In] in Hin.
  repeat (destruct Hin as [Hin|Hin];
          [injection Hin as <- <- <-;
           repeat first
             [ rewrite (block_take first_arg _ l _ _ v)
                 by first [reflexivity | assumption]
             | rewrite block_skip by reflexivity ];
           reflexivity|]).
  contradiction.
Qed.

Lemma value_goes_to_open_section_witness :
  scan_lines wtp_first_arg (Some "a", no_buckets)
             ["====Hypernyms===="; "* {{ws|feeling}}"]
  = (Some "d", add_hyper "feeling" no_buckets).
Proof.
  apply (value_goes_to_open_section wtp_first_arg (Some "a") no_buckets
           "====Hypernyms====" "* {{ws|feeling}}" "feeling" "Hypernyms" "d"
           add_hyper).
  - cbn. tauto.
  - reflexivity.
  - reflexivity.
  - reflexivity.
  - reflexivity.
  - reflexivity.
Defined.

(** X17: what [parse_text] writes does not depend on the title beyond the
    test for "Thesaurus:": two qualifying titles give the same result on
    the same text, the word of the entry being taken from the text. *)
Theorem entry_ignores_title (first_arg : string -> option string)
    (t1 t2 body : string) (out : list entry) :
  PyStr.contains "Thesaurus:" t1 = true ->
  PyStr.contains "Thesaurus:" t2 = true ->
  parse_text first_arg (Some t1) (Some body) out
  = parse_text first_arg (Some t2) (Some body) out
  /\ forall e,
       parse_text first_arg (Some t1) (Some body) out = Ok (out ++ [e]) ->
       In (word e) (wordss_of body).
Proof.
  intros H1 H2. unfold parse_text. rewrite H1, H2. cbn [negb].
  split; [reflexivity|].
  intros e H.
  destruct (wordss_of body) as [|w0 ws]; [discriminate|].
  destruct (scan_lines _ _ _) as [k b].
  injection H as H. apply app_inv_head in H. injection H as <-.
  now left.
Qed.

Lemma entry_ignores_title_witness :
  parse_text wtp_first_arg (Some "Thesaurus:happy") (Some happy_body) []
  = parse_text wtp_first_arg (Some "Thesaurus:sad") (Some happy_body) [].
Proof.
  exact (proj1 (entry_ignores_title wtp_first_arg "Thesaurus:happy"
                  "Thesaurus:sad" happy_body [] eq_refl eq_refl)).
Defined.

Lemma sub_nonword_space_app (a b : string) :
  PyStr.sub_nonword_space (a ++ b)
  = (PyStr.sub_nonword_space a ++ PyStr.sub_nonword_space b)%string.
Proof.
  induction a as [|c a IH]; [reflexivity|].
  cbn [append PyStr.sub_nonword_space]. now rewrite IH.
Qed.

Lemma sub_nonword_space_blanks (s : string) :
  nonword s = true -> PyStr.sub_nonword_space s = blanks (String.length s).
Proof.
  induction s as [|c s IH]; intros H; [reflexivity|].
  cbn [nonword] in H. apply andb_true_iff in H as [Hc Hs].
  apply negb_true_iff in Hc.
  cbn [PyStr.sub_nonword_space String.length blanks]. rewrite Hc.
  now rewrite IH.
Qed.

Lemma lstrip_blanks (n : nat) (x : string) :
  PyStr.lstrip (blanks n ++ x) = PyStr.lstrip x.
Proof.
  induction n as [|n IH]; [reflexivity|].
  cbn [blanks append PyStr.lstrip].
  change (PyStr.isspace " ") with true. exact IH.
Qed.

Lemma rstrip_blanks (n : nat) : PyStr.rstrip (blanks n) = "".
Proof.
  induction n as [|n IH]; [reflexivity|].
  cbn [blanks PyStr.rstrip]. rewrite IH.
  change (PyStr.isspace " ") with true. reflexivity.
Qed.

Lemma rstrip_app_blank (a b : string) :
  PyStr.rstrip b = "" -> PyStr.rstrip (a ++ b) = PyStr.rstrip a.
Proof.
  intros H. induction a as [|c a IH].
  - exact H.
  - cbn [append PyStr.rstrip]. now rewrite IH.
Qed.

Lemma lstrip_nonspace (c : ascii) (r : string) :
  PyStr.isspace c = false -> PyStr.lstrip (String c r) = String c r.
Proof. intros H. cbn [PyStr.lstrip]. now rewrite H. Qed.

Lemma header_words (h : string) :
  In h headers -> PyStr.sub_nonword_space h = h /\ PyStr.rstrip h = h.
Proof.
  unfold headers. cbn [In]. intros [<-|[<-|[<-|[<-|[<-|[<-|[<-|[]]]]]]]];
    split; vm_compute; reflexivity.
Qed.

Lemma lstrip_header (h x : string) :
  In h headers -> PyStr.lstrip (h ++ x) = (h ++ x)%string.
Proof.
  unfold headers. cbn [In]. intros [<-|[<-|[<-|[<-|[<-|[<-|[<-|[]]]]]]]];
    cbn [append]; apply lstrip_nonspace; vm_compute; reflexivity.
Qed.

Lemma strip_header_blanks (h : string) (n : nat) :
  In h headers ->
  PyStr.rstrip (PyStr.lstrip (PyStr.sub_nonword_space h ++ blanks n)) = h.
Proof.
  intros H. destruct (header_words h H) as [E1 E2].
  rewrite E1, (lstrip_header h (blanks n) H).
  rewrite (rstrip_app_blank h (blanks n) (rstrip_blanks n)). exact E2.
Qed.

(** X18: a header is known by its word characters alone: whatever
    characters outside the class [\w] stand before and after one of the
    seven labels (equals signs of any heading level, list bullets, colons,
    blanks), the line is taken for the header of that relation and opens
    its section. *)
Theorem header_ignores_decoration (pre suf h : string) :
  In h headers ->
  nonword pre = true ->
  nonword suf = true ->
  label (pre ++ h ++ suf) = h
  /\ is_header (pre ++ h ++ suf) = true
  /\ forall key, next_key key (pre ++ h ++ suf) = next_key key h.
Proof.
  intros Hin Hpre Hsuf.
  assert (L : label (pre ++ h ++ suf) = h).
  { unfold label, PyStr.strip.
    rewrite !sub_nonword_space_app.
    rewrite (sub_nonword_space_blanks pre Hpre),
            (sub_nonword_space_blanks suf Hsuf).
    rewrite lstrip_blanks.
    now apply strip_header_blanks. }
  assert (L0 : label h = h).
  { pose proof (strip_header_blanks h 0 Hin) as E.
    cbn [blanks] in E. rewrite append_empty_r in E. exact E. }
  split; [exact L|]. split.
  - unfold is_header. apply existsb_exists. exists h.
    split; [exact Hin|]. rewrite L. apply String.eqb_refl.
  - intros key. unfold next_key. rewrite L, L0.
    unfold headers in Hin. cbn [In] in Hin.
    destruct Hin as [<-|[<-|[<-|[<-|[<-|[<-|[<-|[]]]]]]]]; reflexivity.
Qed.

Lemma header_ignores_decoration_witness :
  label "* Synonyms: " = "Synonyms"
  /\ is_header "* Synonyms: " = true
  /\ forall key, next_key key "* Synonyms: " = next_key key "Synonyms".
Proof.
  apply (header_ignores_decoration "* " ": " "Synonyms").
  - left. reflexivity.
  - vm_compute. reflexivity.
  - vm_compute. reflexivity.
Defined.
